(** * FTOLED: the command layer of the Freetronics 128x128 OLED driver

    A shallow embedding of [FTOLED.h]: the [Colour] bit-field struct, the
    inline methods of class [OLED] that talk to the display controller, and
    the status enumeration of the bitmap decoder.  The header declares
    [displayBMP] without a body and has no method that arms a window;
    [setWindow] and the decoder follow the driver's specification and are
    marked as such.

    Conventions.
    - An unsigned integer of [w] bits is a [uint w]: an integer together
      with the evidence that it lies in [0, 2^w).  [byte] is [uint 8]; a
      bit-field [byte f : 5] is a [uint 5].
    - C++ evaluates every operator on values promoted to [int]; the
      expressions of this header stay far below the smallest [int] the
      library is built for (16 bits), so they are written over [Z].  Each
      conversion back to [byte] (argument passing, assignment) is the
      truncation [to_byte].
    - The two Arduino services used by the header, [digitalWrite] and
      [SPI.transfer], are recorded as a trace of [event]s.  What the display
      controller sees on the bus is recovered from a trace by [bus_view]. *)

From Stdlib Require Import ZArith List Bool Lia.
Import ListNotations.

Local Open Scope Z_scope.

(* ================================================================== *)
(** ** Fixed-width unsigned integers *)

Definition in_range (w : nat) (v : Z) : bool :=
  (0 <=? v) && (v <? 2 ^ Z.of_nat w).

Record uint (w : nat) : Type := mk_uint {
  uval :> Z;
  uval_ok : in_range w uval = true
}.

Arguments mk_uint {w} _ _.
Arguments uval {w} _.
Arguments uval_ok {w} _.

Lemma in_range_iff (w : nat) (v : Z) :
  in_range w v = true <-> 0 <= v < 2 ^ Z.of_nat w.
Proof.
  unfold in_range. rewrite andb_true_iff, Z.leb_le, Z.ltb_lt. tauto.
Qed.

Lemma pow2_pos (w : nat) : 0 < 2 ^ Z.of_nat w.
Proof. apply Z.pow_pos_nonneg; lia. Qed.

Lemma wrap_in_range (w : nat) (z : Z) :
  in_range w (z mod 2 ^ Z.of_nat w) = true.
Proof.
  apply in_range_iff. apply Z.mod_pos_bound, pow2_pos.
Qed.

(** Conversion of an [int] to an unsigned type of [w] bits, and a store
    into a bit-field of [w] bits: the value modulo [2^w]. *)
Definition trunc (w : nat) (z : Z) : uint w :=
  mk_uint (z mod 2 ^ Z.of_nat w) (wrap_in_range w z).

Definition byte : Type := uint 8.
Definition to_byte (z : Z) : byte := trunc 8 z.

(* ================================================================== *)
(** ** Constants and enumerations of the header *)

Definition ROWS : Z := 128.
Definition COLUMNS : Z := 128.
Definition ROW_MASK : Z := ROWS - 1.
Definition COLUMN_MASK : Z := COLUMNS - 1.

(** [struct Colour { byte red : 5; byte green : 6; byte blue : 5; }] *)
Record Colour : Type := mkColour {
  red   : uint 5;
  green : uint 6;
  blue  : uint 5
}.

Definition MAX_RED : Z := 31.
Definition MAX_GREEN : Z := 63.
Definition MAX_BLUE : Z := 31.

(** Aggregate initialisation [Colour c = { r, g, b }] from three bytes, and
    the assignments [c.red = v], [c.green = v], [c.blue = v]: each member
    keeps the low bits that fit its width. *)
Definition Colour_init (r g b : byte) : Colour :=
  mkColour (trunc 5 r) (trunc 6 g) (trunc 5 b).

Definition set_red (c : Colour) (v : byte) : Colour :=
  mkColour (trunc 5 v) (green c) (blue c).
Definition set_green (c : Colour) (v : byte) : Colour :=
  mkColour (red c) (trunc 6 v) (blue c).
Definition set_blue (c : Colour) (v : byte) : Colour :=
  mkColour (red c) (green c) (trunc 5 v).

Inductive OLED_Display_Mode : Type :=
| DISPLAY_OFF
| DISPLAY_ALL_PIXELS_FULL
| DISPLAY_NORMAL
| DISPLAY_INVERSE.

Definition OLED_Display_Mode_value (m : OLED_Display_Mode) : Z :=
  match m with
  | DISPLAY_OFF => 0
  | DISPLAY_ALL_PIXELS_FULL => 1
  | DISPLAY_NORMAL => 2
  | DISPLAY_INVERSE => 3
  end.

Inductive OLED_GPIO_Mode : Type :=
| OLED_HIZ
| OLED_LOW
| OLED_HIGH.

Definition OLED_GPIO_Mode_value (m : OLED_GPIO_Mode) : Z :=
  match m with
  | OLED_HIZ => 0
  | OLED_LOW => 2
  | OLED_HIGH => 3
  end.

Inductive BMP_Status : Type :=
| BMP_OK
| BMP_INVALID_FORMAT
| BMP_UNSUPPORTED_HEADER
| BMP_TOO_MANY_COLOURS
| BMP_COMPRESSION_NOT_SUPPORTED
| BMP_ORIGIN_OUTSIDE_IMAGE.


Inductive OLED_Command_Lock : Type :=
| DISPLAY_COMMAND_UNLOCK
| DISPLAY_COMMAND_LOCK
| DISPLAY_COMMAND_LOCK_SPECIAL
| DISPLAY_COMMAND_ALLOW_SPECIAL.

Definition OLED_Command_Lock_value (l : OLED_Command_Lock) : Z :=
  match l with
  | DISPLAY_COMMAND_UNLOCK => 0x12
  | DISPLAY_COMMAND_LOCK => 0x16
  | DISPLAY_COMMAND_LOCK_SPECIAL => 0xB0
  | DISPLAY_COMMAND_ALLOW_SPECIAL => 0xB1
  end.

Definition REMAP_HORIZONTAL_INCREMENT : Z := 0.
Definition REMAP_VERTICAL_INCREMENT : Z := Z.shiftl 1 0.
Definition REMAP_COLUMNS_LEFT_TO_RIGHT : Z := 0.
Definition REMAP_COLUMNS_RIGHT_TO_LEFT : Z := Z.shiftl 1 1.
Definition REMAP_ORDER_BGR : Z := 0.
Definition REMAP_ORDER_RGB : Z := Z.shiftl 1 2.
Definition REMAP_SCAN_UP_TO_DOWN : Z := 0.
Definition REMAP_SCAN_DOWN_TO_UP : Z := Z.shiftl 1 4.
Definition REMAP_COM_SPLIT_ODD_EVEN : Z := Z.shiftl 1 5.
Definition REMAP_COLOR_8BIT : Z := 0.
Definition REMAP_COLOR_RGB565 : Z := Z.shiftl 1 6.
Definition REMAP_COLOR_18BIT : Z := Z.shiftl 2 6.

(* ================================================================== *)
(** ** The driver object and its effects *)

Inductive level : Type := LOW | HIGH.

(** What the driver asks of the Arduino core, in program order. *)
Inductive event : Type :=
| DigitalWrite (pin : Z) (l : level)
| SPI_transfer (data : Z).

(** The data members of class [OLED] that the inline methods read or
    write.  (The [font] pointer is touched by none of them.) *)
Record OLED : Type := mkOLED {
  pin_ncs : byte;
  pin_dc : byte;
  pin_reset : byte;
  remap_flags : byte;
  gpio_status : byte
}.

(** A [void] method: the object after the call and the events it caused. *)
Definition action : Type := OLED -> OLED * list event.

Definition skip : action := fun o => (o, []).

Definition andThen (a b : action) : action :=
  fun o =>
    let (o1, t1) := a o in
    let (o2, t2) := b o1 in
    (o2, t1 ++ t2).

Declare Scope action_scope.
Delimit Scope action_scope with action.
Bind Scope action_scope with action.
Notation "a ;; b" := (andThen a b) (at level 61, right associativity) : action_scope.
Local Open Scope action_scope.

Definition digitalWrite (pin : OLED -> byte) (l : level) : action :=
  fun o => (o, [DigitalWrite (pin o) l]).

Definition SPI_transfer_byte (data : byte) : action :=
  fun o => (o, [SPI_transfer data]).

Definition trace_of (a : action) (o : OLED) : list event := snd (a o).
Definition object_after (a : action) (o : OLED) : OLED := fst (a o).

(** *** Methods of class [OLED] *)

Definition assertCS : action := digitalWrite pin_ncs LOW.
Definition releaseCS : action := digitalWrite pin_ncs HIGH.

(** [writeCommand(byte command)] *)
Definition writeCommand (command : byte) : action :=
  digitalWrite pin_dc LOW ;;
  SPI_transfer_byte command ;;
  digitalWrite pin_dc HIGH.

(** [writeData(byte data)] *)
Definition writeData (data : byte) : action :=
  SPI_transfer_byte data.

(** [writeData(Colour colour)] *)
Definition writeData_Colour (colour : Colour) : action :=
  writeData (to_byte (Z.lor (Z.shiftr (green colour) 3) (Z.shiftl (red colour) 3))) ;;
  writeData (to_byte (Z.lor (Z.shiftl (green colour) 5) (blue colour))).

(** [writeCommand(byte command, byte data)] *)
Definition writeCommand_data (command data : byte) : action :=
  writeCommand command ;;
  writeData data.

(** [writeData(byte *data, unsigned int length)], the array given as the
    list of its first [length] elements. *)
Fixpoint writeData_array (data : list byte) : action :=
  match data with
  | [] => skip
  | d :: rest => writeData d ;; writeData_array rest
  end.

Definition setColumn (start end_ : byte) : action :=
  writeCommand (to_byte 0x15) ;;
  writeData start ;;
  writeData end_.

Definition setRow (start end_ : byte) : action :=
  writeCommand (to_byte 0x75) ;;
  writeData start ;;
  writeData end_.

Definition setWriteRam : action :=
  writeCommand (to_byte 0x5C).

Definition setDisplayMode (mode : OLED_Display_Mode) : action :=
  assertCS ;;
  writeCommand (to_byte (0xA4 + to_byte (OLED_Display_Mode_value mode))) ;;
  releaseCS.

Definition setCommandLock (lock_command : OLED_Command_Lock) : action :=
  writeCommand_data (to_byte 0xFD) (to_byte (OLED_Command_Lock_value lock_command)).

Definition setDisplayClock (divisor frequency : byte) : action :=
  writeCommand_data (to_byte 0xB3)
    (to_byte (Z.lor divisor (Z.shiftl (Z.land frequency 0x0F) 4))).

Definition setMultiPlexRatio (mux_ratio : byte) : action :=
  writeCommand_data (to_byte 0xCA) (to_byte (Z.land mux_ratio ROW_MASK)).

Definition setDisplayOffset (row : byte) : action :=
  writeCommand_data (to_byte 0xA2) (to_byte (Z.land row ROW_MASK)).

Definition setStartRow (row : byte) : action :=
  writeCommand_data (to_byte 0xA1) (to_byte (Z.land row ROW_MASK)).

Definition set_remap_flags (v : byte) : action :=
  fun o => (mkOLED (pin_ncs o) (pin_dc o) (pin_reset o) v (gpio_status o), []).

Definition setRemapFormat (remap_flags : byte) : action :=
  writeCommand_data (to_byte 0xA0) remap_flags ;;
  set_remap_flags remap_flags.

Definition setIncrementDirection (direction : byte) : action :=
  fun this =>
    let remap : byte :=
      to_byte (Z.land (remap_flags this)
                 (Z.lnot (Z.lor REMAP_HORIZONTAL_INCREMENT REMAP_VERTICAL_INCREMENT))) in
    let remap : byte :=
      to_byte (Z.lor remap
                 (Z.land direction
                    (Z.lor REMAP_VERTICAL_INCREMENT REMAP_HORIZONTAL_INCREMENT))) in
    (writeCommand_data (to_byte 0xA0) remap ;;
     set_remap_flags remap) this.

Definition setColorContrasts (a b c : byte) : action :=
  writeCommand (to_byte 0xC1) ;;
  writeData a ;;
  writeData b ;;
  writeData c.

Definition setMasterContrast (contrast : byte) : action :=
  writeCommand_data (to_byte 0xC7) (to_byte (Z.land contrast 0x0F)).

Definition setResetPrechargePeriods (resetLength precharge : byte) : action :=
  let resetLength : byte :=
    to_byte (Z.quot (Z.land resetLength (Z.lnot 1)) 2 - 1) in
  writeCommand_data (to_byte 0xB1)
    (to_byte (Z.lor (Z.shiftr resetLength 8) (Z.land precharge 0x0F))).

Definition setPrechargeVoltage (level_ : byte) : action :=
  writeCommand_data (to_byte 0xBB) (to_byte (Z.land level_ 0x1F)).

Definition setSecondPrechargePeriod (clocks : byte) : action :=
  let clocks : byte := to_byte (Z.land clocks 0x0F) in
  writeCommand_data (to_byte 0xB6)
    (to_byte (if uval clocks =? 0 then 8 else clocks)).

Definition setLockBits (lock_bits : byte) : action :=
  writeCommand_data (to_byte 0xFD) lock_bits.

(* ================================================================== *)
(** ** The bus as the display controller sees it

    The controller samples its D/C line with every byte shifted in: low
    marks a command byte, high a data byte.  [bus_view dc l t] replays the
    trace [t] with D/C wired to pin [dc] and resting at level [l]. *)

Inductive bus_item : Type :=
| Command (b : Z)
| Data (b : Z).

Fixpoint bus_view (dc : Z) (l : level) (t : list event) : list bus_item :=
  match t with
  | [] => []
  | DigitalWrite pin l' :: rest =>
      bus_view dc (if pin =? dc then l' else l) rest
  | SPI_transfer b :: rest =>
      (match l with LOW => Command b | HIGH => Data b end) :: bus_view dc l rest
  end.

(** The bus traffic of one call on object [o] that finds D/C at level [l]. *)
Definition on_bus (a : action) (o : OLED) (l : level) : list bus_item :=
  bus_view (pin_dc o) l (trace_of a o).


(* ================================================================== *)
(** ** The wire format of a pixel *)

(** The two bytes [writeData(Colour)] hands to [SPI.transfer], as
    functions of the channel values. *)
Definition wire_hi (r g : Z) : Z := (Z.lor (Z.shiftr g 3) (Z.shiftl r 3)) mod 256.
Definition wire_lo (g b : Z) : Z := (Z.lor (Z.shiftl g 5) b) mod 256.

(** The transfers one pixel costs. *)
Definition pixel_events (c : Colour) : list event :=
  [SPI_transfer (wire_hi (red c) (green c)); SPI_transfer (wire_lo (green c) (blue c))].

Definition channels (c : Colour) : Z * Z * Z :=
  (uval (red c), uval (green c), uval (blue c)).

(** The header only ever writes pixels.  The reading of two wire bytes as
    a 5-6-5 pixel follows the layout named by the specification: red in
    bits 15-11, green in bits 10-5, blue in bits 4-0 of the word whose high
    byte is [byte1]. *)
Definition unpack565 (byte1 byte2 : Z) : Z * Z * Z :=
  (Z.shiftr byte1 3,
   Z.lor (Z.shiftl (Z.land byte1 7) 3) (Z.shiftr byte2 5),
   Z.land byte2 31).

Definition unpack_trace (t : list event) : option (Z * Z * Z) :=
  match t with
  | [SPI_transfer byte1; SPI_transfer byte2] => Some (unpack565 byte1 byte2)
  | _ => None
  end.

(** The largest value of a 16-bit [int], the narrowest the library is
    compiled with. *)
Definition INT_MAX : Z := 32767.

(** *** Boolean tests run on every colour *)

Definition below (n : nat) : list Z := map Z.of_nat (seq 0 n).

Definition packing_check (r g b : Z) : bool :=
  (wire_hi r g =? Z.lor (Z.shiftr g 3) (Z.shiftl r 3))
  && (256 * wire_hi r g + wire_lo g b
      =? Z.lor (Z.shiftl r 11) (Z.lor (Z.shiftl g 5) b))
  && (Z.shiftr (256 * wire_hi r g + wire_lo g b) 11 =? r)
  && (Z.land (Z.shiftr (256 * wire_hi r g + wire_lo g b) 5) 63 =? g)
  && (Z.land (256 * wire_hi r g + wire_lo g b) 31 =? b).

Definition promotion_check (r g b : Z) : bool :=
  (Z.shiftl r 3 <=? INT_MAX)
  && (Z.lor (Z.shiftr g 3) (Z.shiftl r 3) <=? INT_MAX)
  && (Z.shiftl g 5 <=? INT_MAX)
  && (Z.lor (Z.shiftl g 5) b <=? INT_MAX).

Definition roundtrip_check (r g b : Z) : bool :=
  match unpack565 (wire_hi r g) (wire_lo g b) with
  | (r', g', b') => (r' =? r) && (g' =? g) && (b' =? b)
  end.

(* ================================================================== *)
(** ** Registers *)

Definition high_nibble (b : Z) : Z := Z.shiftr b 4.
Definition low_nibble (b : Z) : Z := Z.land b 0x0F.

(** The byte [setIncrementDirection] computes from the stored flags and
    its argument. *)
Definition new_remap (old direction : Z) : Z :=
  (Z.lor ((Z.land old (Z.lnot 1)) mod 256) (Z.land direction 1)) mod 256.

(* ================================================================== *)
(** ** Arming the write window *)

(** The events that arm a window with D/C on pin [dc]: command 0x15 and
    the column range, command 0x75 and the row range, command 0x5C. *)
Definition arm_events (dc cs ce rs re : Z) : list event :=
  [DigitalWrite dc LOW; SPI_transfer 0x15; DigitalWrite dc HIGH;
   SPI_transfer cs; SPI_transfer ce;
   DigitalWrite dc LOW; SPI_transfer 0x75; DigitalWrite dc HIGH;
   SPI_transfer rs; SPI_transfer re;
   DigitalWrite dc LOW; SPI_transfer 0x5C; DigitalWrite dc HIGH].

(** Modelled from the spec: [setWindow(x0,y0,x1,y1)] of section 4.1 with
    the write window of section 3.  [FTOLED.h] declares no such method;
    windows are armed in callers ([setPixel], [fillScreen], [drawFilledBox],
    ...) whose bodies are not in the header.  The corners are signed
    coordinates.  Each coordinate is masked to the grid, corners that are
    then reversed are swapped, and the three commands are issued through the
    header's own [setColumn], [setRow] and [setWriteRam].  Masking comes
    before the swap so that the window written has the invariant of
    section 3, its components in [0,127] and start not after end, for every
    input. *)
Definition setWindow (x0 y0 x1 y1 : Z) : action :=
  let x0 := Z.land x0 COLUMN_MASK in
  let x1 := Z.land x1 COLUMN_MASK in
  let y0 := Z.land y0 ROW_MASK in
  let y1 := Z.land y1 ROW_MASK in
  let (x0, x1) := if x1 <? x0 then (x1, x0) else (x0, x1) in
  let (y0, y1) := if y1 <? y0 then (y1, y0) else (y0, y1) in
  setColumn (to_byte x0) (to_byte x1) ;;
  setRow (to_byte y0) (to_byte y1) ;;
  setWriteRam.

(** An object with chip select on pin 7, D/C on pin 2 and reset on pin 3,
    as [OLED(7, 2, 3)] leaves it ([remap_flags] is not initialised by the
    constructor; it is taken as 0 here). *)
Definition example_oled : OLED :=
  mkOLED (to_byte 7) (to_byte 2) (to_byte 3) (to_byte 0)
         (to_byte (Z.lor (OLED_GPIO_Mode_value OLED_HIZ)
                         (Z.shiftl (OLED_GPIO_Mode_value OLED_HIZ) 2))).

(* ================================================================== *)
(** ** The bitmap decoder *)

(** Modelled from the spec: the fields of the bitmap header (section 3,
    "Bitmap Header"); the header file declares no such struct. *)
Record BitmapHeader : Type := mkBitmapHeader {
  bmp_width : Z;
  bmp_height : Z;
  bmp_bit_depth : Z;
  bmp_compression : Z;
  bmp_palette_size : Z;
  bmp_data_offset : Z
}.

(** Modelled from the spec: what the decoder learns from a byte source
    (section 4.3).  [FTOLED.h] declares the template [_displayBMP] over a
    [SourceType] but not the operations of that type, and the layout of the
    container is not given, so a source is taken by what the decoding steps
    read from it: whether signature and header length validate, whether
    the header variant is supported, the parsed header, and the colour of
    the pixel at a row and a column once resolved (directly or through the
    palette).  Row 0 is the first row of the container, the bottom row of
    the image; column 0 is its left column. *)
Class ByteSource (SourceType : Type) : Type := {
  signature_valid : SourceType -> bool;
  header_variant_supported : SourceType -> bool;
  read_header : SourceType -> BitmapHeader;
  resolve_pixel : SourceType -> nat -> nat -> Colour
}.

(** Modelled from the spec: the write window of section 3, start and end
    column, start and end row. *)
Record Window : Type := mkWindow {
  col_start : Z;
  col_end : Z;
  row_start : Z;
  row_end : Z
}.

(** Modelled from the spec: the destination window, computed "from the
    requested placement and the image's own width/height" and anchored
    bottom-left at [(from_x, from_y)]: the requested bounds, as far as the
    image reaches. *)
Definition destination_window (h : BitmapHeader) (from_x from_y to_x to_y : Z) : Window :=
  mkWindow from_x (Z.min to_x (from_x + bmp_width h - 1))
           from_y (Z.min to_y (from_y + bmp_height h - 1)).

(** Modelled from the spec: coordinates "must be clipped before any
    device write" (section 3); the part of a window on the 128 x 128
    grid. *)
Definition clip_to_grid (w : Window) : Window :=
  mkWindow (Z.max 0 (col_start w)) (Z.min COLUMN_MASK (col_end w))
           (Z.max 0 (row_start w)) (Z.min ROW_MASK (row_end w)).

Definition window_empty (w : Window) : bool :=
  (col_end w <? col_start w) || (row_end w <? row_start w).

(** Modelled from the spec: a window "falls outside the addressable
    grid" when no pixel of it is on the grid. *)
Definition outside_grid (w : Window) : bool := window_empty (clip_to_grid w).


Section Decoder.

(** The largest palette the decoder accepts and the compression modes it
    supports; the specification names neither value. *)
Variable max_palette : Z.
Variable compression_supported : Z -> bool.

Context {SourceType : Type} {Source : ByteSource SourceType}.

(** Modelled from the spec: "for each pixel, resolve its colour and
    forward"; [count] pixels of image row [row], from column [col] to the
    right, each through [writeData(Colour)]. *)
Fixpoint stream_pixels (source : SourceType) (row col count : nat) : action :=
  match count with
  | O => skip
  | S k =>
      writeData_Colour (resolve_pixel source row col) ;;
      stream_pixels source row (S col) k
  end.

(** Modelled from the spec: "stream rows from last to first"; the image
    rows [bottom + count - 1], ..., [bottom], the highest first. *)
Fixpoint stream_rows (source : SourceType) (col width bottom count : nat) : action :=
  match count with
  | O => skip
  | S k =>
      stream_pixels source (bottom + k) col width ;;
      stream_rows source col width bottom k
  end.

(** Modelled from the spec: the visible window [v] of an image anchored
    at [(from_x, from_y)] is armed through [setWindow] and filled with
    the pixels of the image that lie in it. *)
Definition stream_image (source : SourceType) (from_x from_y : Z) (v : Window) : action :=
  setWindow (col_start v) (row_start v) (col_end v) (row_end v) ;;
  stream_rows source
    (Z.to_nat (col_start v - from_x)) (Z.to_nat (col_end v - col_start v + 1))
    (Z.to_nat (row_start v - from_y)) (Z.to_nat (row_end v - row_start v + 1)).

(** Modelled from the spec: the body of the template [_displayBMP], which
    the header only declares.  The steps are those of section 4.3 in their
    order: validate signature and header length, reject an unsupported
    header variant, reject a palette above the maximum, reject an
    unsupported compression mode, compute the destination window and
    reject it when it is outside the grid, then stream the rows of its
    visible part. *)
Definition _displayBMP (source : SourceType) (from_x from_y to_x to_y : Z)
  : OLED -> BMP_Status * (OLED * list event) :=
  fun o =>
    if negb (signature_valid source) then (BMP_INVALID_FORMAT, (o, []))
    else if negb (header_variant_supported source) then (BMP_UNSUPPORTED_HEADER, (o, []))
    else
      let h := read_header source in
      if (0 <? bmp_palette_size h) && (max_palette <? bmp_palette_size h)
      then (BMP_TOO_MANY_COLOURS, (o, []))
      else if negb (compression_supported (bmp_compression h))
      then (BMP_COMPRESSION_NOT_SUPPORTED, (o, []))
      else
        let w := destination_window h from_x from_y to_x to_y in
        if outside_grid w then (BMP_ORIGIN_OUTSIDE_IMAGE, (o, []))
        else (BMP_OK, stream_image source from_x from_y (clip_to_grid w) o).

End Decoder.

Section Overloads.

Variable max_palette : Z.
Variable compression_supported : Z -> bool.

(** The two kinds of source of the public overloads: an SD card [File]
    and a buffer in program memory. *)
Context {File PgmBuffer : Type}.
Context {File_source : ByteSource File} {Pgm_source : ByteSource PgmBuffer}.

(** Modelled from the spec: the four public overloads, whose bodies are
    not in the header.  The bounded forms hand their source and bounds to
    [_displayBMP]; the forms with [(x, y)] alone are "sugar over the
    bounded form", with the far corner taken from the image's width and
    height. *)
Definition displayBMP_File_bounds (source : File) (from_x from_y to_x to_y : Z) :=
  _displayBMP max_palette compression_supported source from_x from_y to_x to_y.

(** Modelled from the spec: the origin form on a [File]. *)
Definition displayBMP_File_xy (source : File) (x y : Z) :=
  displayBMP_File_bounds source x y
    (x + bmp_width (read_header source) - 1) (y + bmp_height (read_header source) - 1).

(** Modelled from the spec: the bounded form on a program-memory buffer. *)
Definition displayBMP_pgm_bounds (pgm_addr : PgmBuffer) (from_x from_y to_x to_y : Z) :=
  _displayBMP max_palette compression_supported pgm_addr from_x from_y to_x to_y.

(** Modelled from the spec: the origin form on a program-memory buffer. *)
Definition displayBMP_pgm_xy (pgm_addr : PgmBuffer) (x y : Z) :=
  displayBMP_pgm_bounds pgm_addr x y
    (x + bmp_width (read_header pgm_addr) - 1) (y + bmp_height (read_header pgm_addr) - 1).

(** A call of any of the four. *)
Inductive displayBMP_call : Type :=
| Call_File_xy (source : File) (x y : Z)
| Call_File_bounds (source : File) (from_x from_y to_x to_y : Z)
| Call_pgm_xy (pgm_addr : PgmBuffer) (x y : Z)
| Call_pgm_bounds (pgm_addr : PgmBuffer) (from_x from_y to_x to_y : Z).

Definition displayBMP (c : displayBMP_call) : OLED -> BMP_Status * (OLED * list event) :=
  match c with
  | Call_File_xy source x y => displayBMP_File_xy source x y
  | Call_File_bounds source fx fy tx ty => displayBMP_File_bounds source fx fy tx ty
  | Call_pgm_xy pgm_addr x y => displayBMP_pgm_xy pgm_addr x y
  | Call_pgm_bounds pgm_addr fx fy tx ty => displayBMP_pgm_bounds pgm_addr fx fy tx ty
  end.









End Overloads.

(** *** A bitmap held in memory, to run the decoder on *)

Record MemoryBitmap : Type := mkMemoryBitmap {
  mem_signature_valid : bool;
  mem_header_variant_supported : bool;
  mem_header : BitmapHeader;
  mem_pixel : nat -> nat -> Colour
}.

#[export] Instance MemoryBitmap_source : ByteSource MemoryBitmap := {
  signature_valid := mem_signature_valid;
  header_variant_supported := mem_header_variant_supported;
  read_header := mem_header;
  resolve_pixel := mem_pixel
}.

(** An image of 16 bits per pixel without palette; the pixel at row [r],
    column [c] has red [r], green [c] and blue 31. *)
Definition test_bitmap (width height compression : Z) : MemoryBitmap :=
  mkMemoryBitmap true true
    (mkBitmapHeader width height 16 compression 0 54)
    (fun r c => Colour_init (to_byte (Z.of_nat r)) (to_byte (Z.of_nat c)) (to_byte 31)).

Definition tiny_bitmap (compression : Z) : MemoryBitmap := test_bitmap 2 2 compression.

Definition only_uncompressed (compression : Z) : bool := compression =? 0.

(** The status of a decoding and what it put on the bus, D/C on pin 2. *)
Definition on_bus_of_decoding (result : BMP_Status * (OLED * list event))
  : BMP_Status * list bus_item :=
  (fst result, bus_view 2 HIGH (snd (snd result))).

(* ================================================================== *)
(** ** Calls in sequence *)

(** [writeData(byte *data, unsigned int length)] as its loop runs: the
    array is read at the indices [i], [i+1], ... for as many iterations
    as remain. *)
Fixpoint writeData_loop (data : nat -> byte) (i remaining : nat) : action :=
  match remaining with
  | O => skip
  | S k => writeData (data i) ;; writeData_loop data (S i) k
  end.

Definition writeData_buffer (data : nat -> byte) (length : nat) : action :=
  writeData_loop data 0 length.

(** A run of [writeData(Colour)] calls, one per pixel. *)
Fixpoint writeData_Colours (pixels : list Colour) : action :=
  match pixels with
  | [] => skip
  | c :: rest => writeData_Colour c ;; writeData_Colours rest
  end.

(** The reading of a run of transfers as pixels, two bytes each. *)
Fixpoint unpack_stream (t : list event) : option (list (Z * Z * Z)) :=
  match t with
  | [] => Some []
  | SPI_transfer byte1 :: SPI_transfer byte2 :: rest =>
      option_map (cons (unpack565 byte1 byte2)) (unpack_stream rest)
  | _ => None
  end.

(** The divisor constants of [setDisplayClock]. *)
Definition DISPLAY_CLOCK_DIV_1 : Z := 0.
Definition DISPLAY_CLOCK_DIV_2 : Z := 1.
Definition DISPLAY_CLOCK_DIV_4 : Z := 2.
Definition DISPLAY_CLOCK_DIV_8 : Z := 3.
Definition DISPLAY_CLOCK_DIV_16 : Z := 4.
Definition DISPLAY_CLOCK_DIV_32 : Z := 5.
Definition DISPLAY_CLOCK_DIV_64 : Z := 6.
Definition DISPLAY_CLOCK_DIV_128 : Z := 7.
Definition DISPLAY_CLOCK_DIV_256 : Z := 8.
Definition DISPLAY_CLOCK_DIV_512 : Z := 9.
Definition DISPLAY_CLOCK_DIV_1024 : Z := 10.

Definition display_clock_divisors : list Z :=
  [DISPLAY_CLOCK_DIV_1; DISPLAY_CLOCK_DIV_2; DISPLAY_CLOCK_DIV_4; DISPLAY_CLOCK_DIV_8;
   DISPLAY_CLOCK_DIV_16; DISPLAY_CLOCK_DIV_32; DISPLAY_CLOCK_DIV_64;
   DISPLAY_CLOCK_DIV_128; DISPLAY_CLOCK_DIV_256; DISPLAY_CLOCK_DIV_512;
   DISPLAY_CLOCK_DIV_1024].

(** A call of one of the command methods of the header, with its
    arguments. *)
Inductive command_call : Type :=
| call_setColumn (start end_ : byte)
| call_setRow (start end_ : byte)
| call_setWriteRam
| call_setDisplayMode (mode : OLED_Display_Mode)
| call_setCommandLock (lock_command : OLED_Command_Lock)
| call_setDisplayClock (divisor frequency : byte)
| call_setMultiPlexRatio (mux_ratio : byte)
| call_setDisplayOffset (row : byte)
| call_setStartRow (row : byte)
| call_setRemapFormat (flags : byte)
| call_setIncrementDirection (direction : byte)
| call_setColorContrasts (a b c : byte)
| call_setMasterContrast (contrast : byte)
| call_setResetPrechargePeriods (resetLength precharge : byte)
| call_setPrechargeVoltage (level_ : byte)
| call_setSecondPrechargePeriod (clocks : byte)
| call_setLockBits (lock_bits : byte).

Definition run_call (c : command_call) : action :=
  match c with
  | call_setColumn start end_ => setColumn start end_
  | call_setRow start end_ => setRow start end_
  | call_setWriteRam => setWriteRam
  | call_setDisplayMode mode => setDisplayMode mode
  | call_setCommandLock lock_command => setCommandLock lock_command
  | call_setDisplayClock divisor frequency => setDisplayClock divisor frequency
  | call_setMultiPlexRatio mux_ratio => setMultiPlexRatio mux_ratio
  | call_setDisplayOffset row => setDisplayOffset row
  | call_setStartRow row => setStartRow row
  | call_setRemapFormat flags => setRemapFormat flags
  | call_setIncrementDirection direction => setIncrementDirection direction
  | call_setColorContrasts a b c => setColorContrasts a b c
  | call_setMasterContrast contrast => setMasterContrast contrast
  | call_setResetPrechargePeriods resetLength precharge =>
      setResetPrechargePeriods resetLength precharge
  | call_setPrechargeVoltage level_ => setPrechargeVoltage level_
  | call_setSecondPrechargePeriod clocks => setSecondPrechargePeriod clocks
  | call_setLockBits lock_bits => setLockBits lock_bits
  end.

Fixpoint run_calls (cs : list command_call) : action :=
  match cs with
  | [] => skip
  | c :: rest => run_call c ;; run_calls rest
  end.

(** The command byte each call opens with. *)
Definition opcode (c : command_call) : Z :=
  match c with
  | call_setColumn _ _ => 0x15
  | call_setRow _ _ => 0x75
  | call_setWriteRam => 0x5C
  | call_setDisplayMode mode => 0xA4 + OLED_Display_Mode_value mode
  | call_setCommandLock _ => 0xFD
  | call_setDisplayClock _ _ => 0xB3
  | call_setMultiPlexRatio _ => 0xCA
  | call_setDisplayOffset _ => 0xA2
  | call_setStartRow _ => 0xA1
  | call_setRemapFormat _ => 0xA0
  | call_setIncrementDirection _ => 0xA0
  | call_setColorContrasts _ _ _ => 0xC1
  | call_setMasterContrast _ => 0xC7
  | call_setResetPrechargePeriods _ _ => 0xB1
  | call_setPrechargeVoltage _ => 0xBB
  | call_setSecondPrechargePeriod _ => 0xB6
  | call_setLockBits _ => 0xFD
  end.

(** The data bytes that follow, as the method computes them on object
    [o]. *)
Definition payload (c : command_call) (o : OLED) : list Z :=
  match c with
  | call_setColumn start end_ => [uval start; uval end_]
  | call_setRow start end_ => [uval start; uval end_]
  | call_setWriteRam => []
  | call_setDisplayMode _ => []
  | call_setCommandLock lock_command =>
      [uval (to_byte (OLED_Command_Lock_value lock_command))]
  | call_setDisplayClock divisor frequency =>
      [uval (to_byte (Z.lor divisor (Z.shiftl (Z.land frequency 0x0F) 4)))]
  | call_setMultiPlexRatio mux_ratio => [uval (to_byte (Z.land mux_ratio ROW_MASK))]
  | call_setDisplayOffset row => [uval (to_byte (Z.land row ROW_MASK))]
  | call_setStartRow row => [uval (to_byte (Z.land row ROW_MASK))]
  | call_setRemapFormat flags => [uval flags]
  | call_setIncrementDirection direction => [new_remap (remap_flags o) direction]
  | call_setColorContrasts a b c => [uval a; uval b; uval c]
  | call_setMasterContrast contrast => [uval (to_byte (Z.land contrast 0x0F))]
  | call_setResetPrechargePeriods resetLength precharge =>
      [uval (to_byte
               (Z.lor (Z.shiftr (to_byte (Z.quot (Z.land resetLength (Z.lnot 1)) 2 - 1)) 8)
                      (Z.land precharge 0x0F)))]
  | call_setPrechargeVoltage level_ => [uval (to_byte (Z.land level_ 0x1F))]
  | call_setSecondPrechargePeriod clocks =>
      [uval (to_byte (if uval (to_byte (Z.land clocks 0x0F)) =? 0
                      then 8 else to_byte (Z.land clocks 0x0F)))]
  | call_setLockBits lock_bits => [uval lock_bits]
  end.

(** The register of the controller a call addresses.  Two methods write
    the command lock and two the remap register. *)
Inductive register : Type :=
| ColumnRange | RowRange | WriteRam | DisplayMode | CommandLock | DisplayClock
| MultiplexRatio | DisplayOffset | StartRow | Remap | ColourContrasts
| MasterContrast | ResetPrecharge | PrechargeVoltage | SecondPrecharge.

Definition register_of (c : command_call) : register :=
  match c with
  | call_setColumn _ _ => ColumnRange
  | call_setRow _ _ => RowRange
  | call_setWriteRam => WriteRam
  | call_setDisplayMode _ => DisplayMode
  | call_setCommandLock _ => CommandLock
  | call_setDisplayClock _ _ => DisplayClock
  | call_setMultiPlexRatio _ => MultiplexRatio
  | call_setDisplayOffset _ => DisplayOffset
  | call_setStartRow _ => StartRow
  | call_setRemapFormat _ => Remap
  | call_setIncrementDirection _ => Remap
  | call_setColorContrasts _ _ _ => ColourContrasts
  | call_setMasterContrast _ => MasterContrast
  | call_setResetPrechargePeriods _ _ => ResetPrecharge
  | call_setPrechargeVoltage _ => PrechargeVoltage
  | call_setSecondPrechargePeriod _ => SecondPrecharge
  | call_setLockBits _ => CommandLock
  end.

Definition writes_remap (c : command_call) : bool :=
  match c with
  | call_setRemapFormat _ | call_setIncrementDirection _ => true
  | _ => false
  end.

Definition is_setDisplayMode (c : command_call) : bool :=
  match c with
  | call_setDisplayMode _ => true
  | _ => false
  end.

(* ================================================================== *)
(** ** Pins as the calls leave them, and what was sent *)

(** The level of a pin after a trace, given its level before. *)
Fixpoint pin_after (pin : Z) (l : level) (t : list event) : level :=
  match t with
  | [] => l
  | DigitalWrite p l' :: rest => pin_after pin (if p =? pin then l' else l) rest
  | SPI_transfer _ :: rest => pin_after pin l rest
  end.

(** Every byte transferred, with the level of the chip select pin at that
    moment. *)
Fixpoint select_view (ncs : Z) (l : level) (t : list event) : list (level * Z) :=
  match t with
  | [] => []
  | DigitalWrite p l' :: rest => select_view ncs (if p =? ncs then l' else l) rest
  | SPI_transfer b :: rest => (l, b) :: select_view ncs l rest
  end.

(** The data byte the driver last sent right after a command byte 0xA0,
    if it sent one: a reading of the bytes the driver put on the bus.
    [pending] tells that the last byte seen was the command 0xA0. *)
Fixpoint last_remap_sent (sent : option Z) (pending : bool) (items : list bus_item)
  : option Z :=
  match items with
  | [] => sent
  | Command c :: rest => last_remap_sent sent (c =? 0xA0) rest
  | Data d :: rest => last_remap_sent (if pending then Some d else sent) false rest
  end.

(** *** The width of [int] *)

(** A signed integer of [bits] bits, wrapped. *)
Definition wrap_int (bits : Z) (z : Z) : Z :=
  (z + 2 ^ (bits - 1)) mod 2 ^ bits - 2 ^ (bits - 1).

(** The two bytes of [writeData(Colour)] with every promoted operand and
    every intermediate result held in an [int] of [bits] bits. *)
Definition wire_hi_int (bits : Z) (r g : Z) : Z :=
  (wrap_int bits (Z.lor (wrap_int bits (Z.shiftr (wrap_int bits g) 3))
                        (wrap_int bits (Z.shiftl (wrap_int bits r) 3)))) mod 256.

Definition wire_lo_int (bits : Z) (g b : Z) : Z :=
  (wrap_int bits (Z.lor (wrap_int bits (Z.shiftl (wrap_int bits g) 5))
                        (wrap_int bits b))) mod 256.

Definition int_width_check (r g b : Z) : bool :=
  (wire_hi_int 16 r g =? wire_hi r g) && (wire_lo_int 16 g b =? wire_lo g b)
  && (wire_hi_int 32 r g =? wire_hi r g) && (wire_lo_int 32 g b =? wire_lo g b).

Definition repack_check (byte1 byte2 : Z) : bool :=
  match unpack565 byte1 byte2 with
  | (r, g, b) =>
      (0 <=? r) && (r <=? 31) && (0 <=? g) && (g <=? 63) && (0 <=? b) && (b <=? 31)
      && (wire_hi r g =? byte1) && (wire_lo g b =? byte2)
  end.

Definition clock_byte (divisor frequency : Z) : Z :=
  (Z.lor divisor (Z.shiftl (Z.land frequency 0x0F) 4)) mod 256.

Definition clock_check (divisor frequency : Z) : bool :=
  (low_nibble (clock_byte divisor frequency) =? Z.land divisor 0x0F)
  && (high_nibble (clock_byte divisor frequency)
      =? Z.lor (Z.shiftr divisor 4) (Z.land frequency 0x0F)).

(** The command bytes among the bytes on the bus, in order. *)
Fixpoint commands_of (items : list bus_item) : list Z :=
  match items with
  | [] => []
  | Command c :: rest => c :: commands_of rest
  | Data _ :: rest => commands_of rest
  end.

(** The two bytes of a pixel as data bytes. *)
Definition pixel_data (c : Colour) : list bus_item :=
  [Data (wire_hi (red c) (green c)); Data (wire_lo (green c) (blue c))].

(* ================================================================== *)
(** * Properties *)

(** ** Fixed-width integers *)

Lemma uint_bounds {w : nat} (u : uint w) : 0 <= u < 2 ^ Z.of_nat w.
Proof. apply in_range_iff, uval_ok. Qed.

Lemma byte_bounds (b : byte) : 0 <= b <= 255.
Proof.
  pose proof (uint_bounds b) as H. change (2 ^ Z.of_nat 8) with 256 in H. lia.
Qed.

Lemma trunc_val (w : nat) (z : Z) : uval (trunc w z) = z mod 2 ^ Z.of_nat w.
Proof. reflexivity. Qed.

Lemma trunc_small (w : nat) (z : Z) :
  0 <= z < 2 ^ Z.of_nat w -> uval (trunc w z) = z.
Proof. intros H. rewrite trunc_val. apply Z.mod_small, H. Qed.

Lemma to_byte_val (z : Z) : uval (to_byte z) = z mod 256.
Proof. reflexivity. Qed.

Lemma to_byte_small (z : Z) : 0 <= z <= 255 -> uval (to_byte z) = z.
Proof. intros H. rewrite to_byte_val. apply Z.mod_small. lia. Qed.

Lemma to_byte_of_byte (b : byte) : uval (to_byte b) = b.
Proof. apply to_byte_small, byte_bounds. Qed.

Lemma byte_shiftr_8 (b : byte) : Z.shiftr b 8 = 0.
Proof.
  rewrite Z.shiftr_div_pow2 by lia.
  apply Z.div_small. pose proof (byte_bounds b). change (2 ^ 8) with 256. lia.
Qed.

Lemma byte_testbit_high (b : byte) (i : Z) : 8 <= i -> Z.testbit b i = false.
Proof.
  intros Hi. rewrite <- (to_byte_of_byte b), to_byte_val.
  change 256 with (2 ^ 8). apply Z.mod_pow2_bits_high. lia.
Qed.

Lemma testbit_1 (i : Z) : Z.testbit 1 i = (i =? 0).
Proof.
  change 1 with (Z.ones 1). rewrite Z.testbit_ones by lia.
  destruct (Z.eqb_spec i 0) as [-> | Hne]; [reflexivity |].
  destruct (Z.leb_spec 0 i); destruct (Z.ltb_spec i 1); simpl; try reflexivity; lia.
Qed.

(** Masking with [2^n - 1] keeps a value in [0, 2^n - 1], so the
    conversion back to [byte] changes nothing. *)
Lemma land_ones_bounds (v : Z) (n : Z) :
  0 <= n -> 0 <= Z.land v (Z.ones n) <= Z.ones n.
Proof.
  intros Hn. rewrite Z.land_ones by assumption.
  rewrite Z.ones_equiv.
  pose proof (Z.mod_pos_bound v (2 ^ n) ltac:(apply Z.pow_pos_nonneg; lia)).
  lia.
Qed.

Lemma masked_byte (v m : Z) (n : Z) :
  0 <= n <= 8 -> m = Z.ones n -> uval (to_byte (Z.land v m)) = Z.land v m.
Proof.
  intros Hn ->. apply to_byte_small.
  pose proof (land_ones_bounds v n ltac:(lia)) as H.
  assert (Z.ones n <= Z.ones 8).
  { rewrite !Z.ones_equiv. pose proof (Z.pow_le_mono_r 2 n 8 ltac:(lia) ltac:(lia)). lia. }
  change (Z.ones 8) with 255 in *. lia.
Qed.

Lemma land_small (v : Z) (n : Z) :
  0 <= n -> 0 <= v <= Z.ones n -> Z.land v (Z.ones n) = v.
Proof.
  intros Hn Hv. rewrite Z.land_ones by assumption.
  apply Z.mod_small. rewrite Z.ones_equiv in Hv. lia.
Qed.

Ltac unmask v m n := rewrite (masked_byte v m n) by (lia || reflexivity).

(** ** Checking a property on every colour *)

Lemma below_complete (n : nat) (z : Z) : 0 <= z < Z.of_nat n -> In z (below n).
Proof.
  intros H. unfold below. apply in_map_iff.
  exists (Z.to_nat z). split; [lia |].
  apply in_seq. lia.
Qed.

Lemma forallb_below (n : nat) (P : Z -> bool) :
  forallb P (below n) = true ->
  forall z, 0 <= z < Z.of_nat n -> P z = true.
Proof.
  intros H z Hz. rewrite forallb_forall in H. apply H, below_complete, Hz.
Qed.

(** A property of the three channel values that a boolean test decides
    holds of all colours once the test has run on the 65536 of them. *)
Lemma all_channels (P : Z -> Z -> Z -> bool) :
  forallb (fun r => forallb (fun g => forallb (P r g) (below 32)) (below 64))
          (below 32) = true ->
  forall r g b, 0 <= r <= 31 -> 0 <= g <= 63 -> 0 <= b <= 31 -> P r g b = true.
Proof.
  intros H r g b Hr Hg Hb.
  pose proof (forallb_below 32 _ H r ltac:(lia)) as H1. cbv beta in H1.
  pose proof (forallb_below 64 _ H1 g ltac:(lia)) as H2. cbv beta in H2.
  exact (forallb_below 32 _ H2 b ltac:(lia)).
Qed.

Lemma Colour_channels (c : Colour) :
  0 <= red c <= 31 /\ 0 <= green c <= 63 /\ 0 <= blue c <= 31.
Proof.
  pose proof (uint_bounds (red c)) as Hr.
  pose proof (uint_bounds (green c)) as Hg.
  pose proof (uint_bounds (blue c)) as Hb.
  change (2 ^ Z.of_nat 5) with 32 in Hr, Hb.
  change (2 ^ Z.of_nat 6) with 64 in Hg.
  lia.
Qed.

Lemma packing_check_all :
  forall r g b, 0 <= r <= 31 -> 0 <= g <= 63 -> 0 <= b <= 31 ->
  packing_check r g b = true.
Proof. apply all_channels. vm_compute. reflexivity. Qed.

Lemma promotion_check_all :
  forall r g b, 0 <= r <= 31 -> 0 <= g <= 63 -> 0 <= b <= 31 ->
  promotion_check r g b = true.
Proof. apply all_channels. vm_compute. reflexivity. Qed.

Lemma roundtrip_check_all :
  forall r g b, 0 <= r <= 31 -> 0 <= g <= 63 -> 0 <= b <= 31 ->
  roundtrip_check r g b = true.
Proof. apply all_channels. vm_compute. reflexivity. Qed.

(** ** Traces and bus traffic *)

Lemma writeCommand_trace (command : byte) (o : OLED) :
  writeCommand command o =
  (o, [DigitalWrite (pin_dc o) LOW; SPI_transfer command; DigitalWrite (pin_dc o) HIGH]).
Proof. reflexivity. Qed.

Lemma writeCommand_data_trace (command data : byte) (o : OLED) :
  writeCommand_data command data o =
  (o, [DigitalWrite (pin_dc o) LOW; SPI_transfer command;
       DigitalWrite (pin_dc o) HIGH; SPI_transfer data]).
Proof. reflexivity. Qed.

(** A command goes out as a command whatever the D/C level before it,
    and leaves D/C high for the bytes that follow. *)
Lemma bus_view_command (dc : Z) (l : level) (command : Z) (rest : list event) :
  bus_view dc l (DigitalWrite dc LOW :: SPI_transfer command :: DigitalWrite dc HIGH :: rest)
  = Command command :: bus_view dc HIGH rest.
Proof. simpl. rewrite Z.eqb_refl. reflexivity. Qed.

Lemma bus_view_data (dc : Z) (data : Z) (rest : list event) :
  bus_view dc HIGH (SPI_transfer data :: rest) = Data data :: bus_view dc HIGH rest.
Proof. reflexivity. Qed.

(** A write to any pin, D/C included, is overridden by the write that
    pulls D/C low right after it. *)
Lemma bus_view_before_low (dc : Z) (l : level) (pin : Z) (l' : level)
      (rest : list event) :
  bus_view dc l (DigitalWrite pin l' :: DigitalWrite dc LOW :: rest)
  = bus_view dc l (DigitalWrite dc LOW :: rest).
Proof. simpl. rewrite Z.eqb_refl. destruct (pin =? dc); reflexivity. Qed.

Lemma on_bus_writeCommand (command : byte) (o : OLED) (l : level) :
  on_bus (writeCommand command) o l = [Command command].
Proof.
  unfold on_bus, trace_of. rewrite writeCommand_trace. cbn [snd].
  rewrite bus_view_command. reflexivity.
Qed.

Lemma on_bus_writeCommand_data (command data : byte) (o : OLED) (l : level) :
  on_bus (writeCommand_data command data) o l = [Command command; Data data].
Proof.
  unfold on_bus, trace_of. rewrite writeCommand_data_trace. cbn [snd].
  rewrite bus_view_command, bus_view_data. reflexivity.
Qed.

Lemma on_bus_command_2data (command d1 d2 : byte) (o : OLED) (l : level) :
  on_bus (writeCommand command ;; writeData d1 ;; writeData d2) o l
  = [Command command; Data d1; Data d2].
Proof.
  unfold on_bus, trace_of.
  change ((writeCommand command ;; writeData d1 ;; writeData d2) o)
    with (o, [DigitalWrite (pin_dc o) LOW; SPI_transfer command;
              DigitalWrite (pin_dc o) HIGH; SPI_transfer d1; SPI_transfer d2]).
  cbn [snd]. rewrite bus_view_command, !bus_view_data. reflexivity.
Qed.

Lemma on_bus_setDisplayMode (mode : OLED_Display_Mode) (o : OLED) (l : level) :
  on_bus (setDisplayMode mode) o l = [Command (0xA4 + OLED_Display_Mode_value mode)].
Proof.
  unfold on_bus, trace_of.
  change (snd (setDisplayMode mode o))
    with [DigitalWrite (pin_ncs o) LOW; DigitalWrite (pin_dc o) LOW;
          SPI_transfer (to_byte (0xA4 + to_byte (OLED_Display_Mode_value mode)));
          DigitalWrite (pin_dc o) HIGH; DigitalWrite (pin_ncs o) HIGH].
  rewrite bus_view_before_low.
  rewrite bus_view_command.
  destruct mode; reflexivity.
Qed.

(** ** Composition of traces *)

Lemma andThen_run (a b : action) (o : OLED) :
  (a ;; b) o
  = (object_after b (object_after a o),
     trace_of a o ++ trace_of b (object_after a o)).
Proof.
  unfold andThen, object_after, trace_of.
  destruct (a o) as [o1 t1]. cbn [fst snd].
  destruct (b o1) as [o2 t2]. reflexivity.
Qed.

Lemma bus_view_app (dc : Z) (t1 t2 : list event) (l : level) :
  bus_view dc l (t1 ++ t2)
  = bus_view dc l t1 ++ bus_view dc (pin_after dc l t1) t2.
Proof.
  revert l. induction t1 as [| e t1 IH]; intros l; [reflexivity |].
  destruct e as [p l' | b]; cbn [app bus_view pin_after].
  - apply IH.
  - rewrite IH. reflexivity.
Qed.


Lemma bus_view_data_run (dc : Z) (bytes : list Z) :
  bus_view dc HIGH (map SPI_transfer bytes) = map Data bytes.
Proof.
  induction bytes as [| b bytes IH]; [reflexivity |].
  cbn [map bus_view]. rewrite IH. reflexivity.
Qed.

Lemma pin_after_transfers (pin : Z) (l : level) (bytes : list Z) :
  pin_after pin l (map SPI_transfer bytes) = l.
Proof.
  induction bytes as [| b bytes IH]; [reflexivity | exact IH].
Qed.

Lemma select_view_transfers (ncs : Z) (l : level) (bytes : list Z) :
  select_view ncs l (map SPI_transfer bytes) = map (pair l) bytes.
Proof.
  induction bytes as [| b bytes IH]; [reflexivity |].
  cbn [map select_view]. rewrite IH. reflexivity.
Qed.

(** ** Pixels on the wire *)

Lemma writeData_Colour_trace (c : Colour) (o : OLED) :
  writeData_Colour c o = (o, pixel_events c).
Proof. reflexivity. Qed.

(** The operands of [writeData(Colour)] never leave the range of a
    16-bit [int], so computing them over [Z] loses nothing. *)
Lemma writeData_Colour_no_overflow (c : Colour) :
  Z.lor (Z.shiftr (green c) 3) (Z.shiftl (red c) 3) <= INT_MAX
  /\ Z.lor (Z.shiftl (green c) 5) (blue c) <= INT_MAX.
Proof.
  destruct (Colour_channels c) as (Hr & Hg & Hb).
  pose proof (promotion_check_all _ _ _ Hr Hg Hb) as H.
  unfold promotion_check in H.
  repeat rewrite andb_true_iff in H. repeat rewrite Z.leb_le in H.
  tauto.
Qed.

(** C1. For every [Colour], [writeData(Colour)] performs exactly two
    transfers and leaves the object alone; with D/C high, as every
    command leaves it (here the 0x5C of [setWriteRam]), they reach the
    controller as two data bytes, high byte first.  The first byte is
    [(green>>3)|(red<<3)], the second the low eight bits of
    [(green<<5)|blue]; read as one 16-bit word they are
    [red<<11 | green<<5 | blue], that is red in bits 15-11, green in bits
    10-5 and blue in bits 4-0. *)
Theorem writeData_Colour_565 (c : Colour) (o : OLED) :
  let byte1 := Z.lor (Z.shiftr (green c) 3) (Z.shiftl (red c) 3) in
  let byte2 := (Z.lor (Z.shiftl (green c) 5) (blue c)) mod 256 in
  let word := 256 * byte1 + byte2 in
  writeData_Colour c o = (o, [SPI_transfer byte1; SPI_transfer byte2])
  /\ on_bus (writeData_Colour c) o HIGH = [Data byte1; Data byte2]
  /\ (forall l : level,
        on_bus (setWriteRam ;; writeData_Colour c) o l
        = [Command 0x5C; Data byte1; Data byte2])
  /\ word = Z.lor (Z.shiftl (red c) 11) (Z.lor (Z.shiftl (green c) 5) (blue c))
  /\ Z.shiftr word 11 = red c
  /\ Z.land (Z.shiftr word 5) 63 = green c
  /\ Z.land word 31 = blue c.
Proof.
  destruct (Colour_channels c) as (Hr & Hg & Hb).
  pose proof (packing_check_all _ _ _ Hr Hg Hb) as H.
  unfold packing_check in H.
  repeat rewrite andb_true_iff in H. repeat rewrite Z.eqb_eq in H.
  destruct H as ((((H1 & H2) & H3) & H4) & H5).
  fold (wire_lo (green c) (blue c)). rewrite <- H1.
  cbv zeta. unfold on_bus, trace_of.
  rewrite writeData_Colour_trace. unfold pixel_events.
  split; [reflexivity |].
  split; [reflexivity |].
  split.
  { intros l.
    change (snd ((setWriteRam ;; writeData_Colour c) o))
      with ([DigitalWrite (pin_dc o) LOW; SPI_transfer (to_byte 0x5C);
             DigitalWrite (pin_dc o) HIGH] ++ pixel_events c).
    unfold pixel_events. cbn [app].
    rewrite bus_view_command, !bus_view_data. reflexivity. }
  repeat split; assumption.
Qed.

Lemma unpack_wire (r g b : Z) :
  0 <= r <= 31 -> 0 <= g <= 63 -> 0 <= b <= 31 ->
  unpack565 (wire_hi r g) (wire_lo g b) = (r, g, b).
Proof.
  intros Hr Hg Hb.
  pose proof (roundtrip_check_all r g b Hr Hg Hb) as H.
  unfold roundtrip_check in H.
  destruct (unpack565 (wire_hi r g) (wire_lo g b)) as [[r' g'] b'].
  repeat rewrite andb_true_iff in H. repeat rewrite Z.eqb_eq in H.
  destruct H as ((-> & ->) & ->). reflexivity.
Qed.

Lemma unpack_writeData_Colour (c : Colour) (o : OLED) :
  unpack_trace (trace_of (writeData_Colour c) o) = Some (channels c).
Proof.
  unfold trace_of. rewrite writeData_Colour_trace. unfold pixel_events. simpl.
  destruct (Colour_channels c) as (Hr & Hg & Hb).
  rewrite unpack_wire by assumption. reflexivity.
Qed.

Lemma Colour_init_channels (r g b : Z) :
  0 <= r <= 31 -> 0 <= g <= 63 -> 0 <= b <= 31 ->
  channels (Colour_init (to_byte r) (to_byte g) (to_byte b)) = (r, g, b).
Proof.
  intros Hr Hg Hb. unfold channels, Colour_init. cbn [red green blue].
  rewrite !to_byte_small by lia.
  rewrite !trunc_small by (simpl; lia).
  reflexivity.
Qed.

(** C2. For every triple with red in [0,31], green in [0,63] and blue in
    [0,31], the [Colour] holding these channels is sent by
    [writeData(Colour)] as two bytes which unpack to the same three
    values; hence any colour sent as the same two bytes has the same
    channels (the encoding is injective). *)
Theorem pack_unpack_roundtrip (r g b : Z) :
  0 <= r <= 31 -> 0 <= g <= 63 -> 0 <= b <= 31 ->
  forall o : OLED,
    let c := Colour_init (to_byte r) (to_byte g) (to_byte b) in
    channels c = (r, g, b)
    /\ unpack_trace (trace_of (writeData_Colour c) o) = Some (r, g, b)
    /\ (forall c' : Colour,
          trace_of (writeData_Colour c') o = trace_of (writeData_Colour c) o ->
          channels c' = (r, g, b)).
Proof.
  intros Hr Hg Hb o c.
  assert (Hc : channels c = (r, g, b)) by (apply Colour_init_channels; assumption).
  split; [exact Hc |].
  split.
  - rewrite unpack_writeData_Colour. f_equal. exact Hc.
  - intros c' Heq.
    pose proof (unpack_writeData_Colour c' o) as H'.
    rewrite Heq, unpack_writeData_Colour in H'.
    assert (Hsame : channels c = channels c') by congruence.
    rewrite <- Hsame. exact Hc.
Qed.

Lemma pack_unpack_roundtrip_witness :
  (0 <= 21 <= 31 /\ 0 <= 42 <= 63 /\ 0 <= 11 <= 31)
  /\ forall o : OLED,
       unpack_trace
         (trace_of (writeData_Colour
                      (Colour_init (to_byte 21) (to_byte 42) (to_byte 11))) o)
       = Some (21, 42, 11).
Proof.
  split; [lia |].
  intros o.
  exact (proj1 (proj2 (pack_unpack_roundtrip 21 42 11
                         ltac:(lia) ltac:(lia) ltac:(lia) o))).
Defined.

(** C5. Every [Colour] has red at most 31, green at most 63 and blue at
    most 31.  The operations that build or overwrite a [Colour] keep it
    so: initialising from three bytes and assigning a byte to a member
    store the value modulo the member's width (32, 64, 32), which leaves a
    value that fits unchanged, and the members not assigned keep their
    value. *)
Theorem Colour_channel_ranges :
  (forall c : Colour,
      0 <= red c <= MAX_RED /\ 0 <= green c <= MAX_GREEN /\ 0 <= blue c <= MAX_BLUE)
  /\ (forall r g b : byte,
        channels (Colour_init r g b) = (r mod 32, g mod 64, b mod 32))
  /\ (forall (c : Colour) (v : byte),
        channels (set_red c v) = (v mod 32, uval (green c), uval (blue c))
        /\ channels (set_green c v) = (uval (red c), v mod 64, uval (blue c))
        /\ channels (set_blue c v) = (uval (red c), uval (green c), v mod 32))
  /\ (forall c : Colour,
        channels (Colour_init (to_byte (red c)) (to_byte (green c)) (to_byte (blue c)))
        = channels c).
Proof.
  split; [exact Colour_channels |].
  split; [reflexivity |].
  split; [intros c v; repeat split |].
  intros c. destruct (Colour_channels c) as (Hr & Hg & Hb).
  apply Colour_init_channels; assumption.
Qed.

(** ** The command methods *)

(** C6. The opcodes.  [setColumn] sends command 0x15 and then the data
    bytes [start], [end]; [setRow] sends 0x75 and then [start], [end];
    [setWriteRam] sends 0x5C alone; [setDisplayMode] sends the single
    command byte 0xA4+mode for the four modes 0..3; [setCommandLock] sends
    0xFD and then the lock byte.  None of them changes the object. *)
Theorem command_opcodes (o : OLED) (l : level) :
  (forall start end_ : byte,
      on_bus (setColumn start end_) o l = [Command 0x15; Data start; Data end_]
      /\ object_after (setColumn start end_) o = o)
  /\ (forall start end_ : byte,
        on_bus (setRow start end_) o l = [Command 0x75; Data start; Data end_]
        /\ object_after (setRow start end_) o = o)
  /\ (on_bus setWriteRam o l = [Command 0x5C] /\ object_after setWriteRam o = o)
  /\ (forall mode : OLED_Display_Mode,
        on_bus (setDisplayMode mode) o l = [Command (0xA4 + OLED_Display_Mode_value mode)]
        /\ 0 <= OLED_Display_Mode_value mode <= 3
        /\ object_after (setDisplayMode mode) o = o)
  /\ (forall lock : OLED_Command_Lock,
        on_bus (setCommandLock lock) o l = [Command 0xFD; Data (OLED_Command_Lock_value lock)]
        /\ object_after (setCommandLock lock) o = o).
Proof.
  repeat split.
  - unfold setColumn. rewrite on_bus_command_2data. reflexivity.
  - unfold setRow. rewrite on_bus_command_2data. reflexivity.
  - unfold setWriteRam. rewrite on_bus_writeCommand. reflexivity.
  - apply on_bus_setDisplayMode.
  - destruct mode; simpl; lia.
  - destruct mode; simpl; lia.
  - unfold setCommandLock. rewrite on_bus_writeCommand_data.
    destruct lock; reflexivity.
Qed.

(** C8. Whatever byte the caller passes, the data byte sent is the masked
    one and stays in the register's range: at most 0x0F after 0xC7
    ([setMasterContrast]), at most 0x1F after 0xBB ([setPrechargeVoltage]),
    at most 127 after 0xA2 ([setDisplayOffset]) and after 0xA1
    ([setStartRow]). *)
Theorem masked_writes_in_range (v : byte) (o : OLED) (l : level) :
  (on_bus (setMasterContrast v) o l = [Command 0xC7; Data (Z.land v 0x0F)]
   /\ 0 <= Z.land v 0x0F <= 0x0F)
  /\ (on_bus (setPrechargeVoltage v) o l = [Command 0xBB; Data (Z.land v 0x1F)]
      /\ 0 <= Z.land v 0x1F <= 0x1F)
  /\ (on_bus (setDisplayOffset v) o l = [Command 0xA2; Data (Z.land v 127)]
      /\ 0 <= Z.land v 127 <= 127)
  /\ (on_bus (setStartRow v) o l = [Command 0xA1; Data (Z.land v 127)]
      /\ 0 <= Z.land v 127 <= 127).
Proof.
  repeat split;
    try (apply (land_ones_bounds v 4); lia);
    try (apply (land_ones_bounds v 5); lia);
    try (apply (land_ones_bounds v 7); lia).
  - unfold setMasterContrast. rewrite on_bus_writeCommand_data.
    unmask v 0x0F 4. reflexivity.
  - unfold setPrechargeVoltage. rewrite on_bus_writeCommand_data.
    unmask v 0x1F 5. reflexivity.
  - unfold setDisplayOffset. rewrite on_bus_writeCommand_data.
    unmask v ROW_MASK 7. reflexivity.
  - unfold setStartRow. rewrite on_bus_writeCommand_data.
    unmask v ROW_MASK 7. reflexivity.
Qed.

(** C10. For every input byte, [setSecondPrechargePeriod] sends command
    0xB6 and one data byte: the low four bits of the input, or 8 when
    those are all zero.  The data byte therefore lies in [1,15] and is
    never zero. *)
Theorem setSecondPrechargePeriod_range (clocks : byte) (o : OLED) (l : level) :
  let masked := Z.land clocks 0x0F in
  let data := if masked =? 0 then 8 else masked in
  on_bus (setSecondPrechargePeriod clocks) o l = [Command 0xB6; Data data]
  /\ 1 <= data <= 15
  /\ object_after (setSecondPrechargePeriod clocks) o = o.
Proof.
  cbv zeta.
  pose proof (land_ones_bounds clocks 4 ltac:(lia)) as Hb.
  change (Z.ones 4) with 0x0F in Hb.
  split; [| split; [| reflexivity]].
  - unfold setSecondPrechargePeriod. rewrite on_bus_writeCommand_data.
    unmask clocks 0x0F 4.
    destruct (Z.land clocks 0x0F =? 0) eqn:E.
    + reflexivity.
    + unmask clocks 0x0F 4. reflexivity.
  - destruct (Z.land clocks 0x0F =? 0) eqn:E; [lia |].
    apply Z.eqb_neq in E. lia.
Qed.

(** ** The reset and precharge register *)

(** C7 (the code against its comment).  Whatever [resetLength] is,
    [setResetPrechargePeriods] sends command 0xB1 with the data byte
    [precharge & 0x0F]: the reset value, a byte, is shifted right by eight
    bits and contributes nothing, so the high nibble of the data byte is
    always 0 and never the reset value 3..15 the comment promises.  For
    [resetLength = 5], [precharge = 3] the data byte is 0x03. *)
Theorem setResetPrechargePeriods_high_nibble (resetLength precharge : byte)
        (o : OLED) (l : level) :
  on_bus (setResetPrechargePeriods resetLength precharge) o l
  = [Command 0xB1; Data (Z.land precharge 0x0F)]
  /\ high_nibble (Z.land precharge 0x0F) = 0
  /\ low_nibble (Z.land precharge 0x0F) = Z.land precharge 0x0F
  /\ on_bus (setResetPrechargePeriods (to_byte 5) (to_byte 3)) o l
     = [Command 0xB1; Data 0x03].
Proof.
  assert (Hbus : forall r p : byte,
             on_bus (setResetPrechargePeriods r p) o l
             = [Command 0xB1; Data (Z.land p 0x0F)]).
  { intros r p. unfold setResetPrechargePeriods.
    rewrite on_bus_writeCommand_data.
    rewrite byte_shiftr_8, Z.lor_0_l.
    unmask p 0x0F 4. reflexivity. }
  pose proof (land_ones_bounds precharge 4 ltac:(lia)) as Hb.
  change (Z.ones 4) with 0x0F in Hb.
  split; [apply Hbus |].
  split.
  { unfold high_nibble. rewrite Z.shiftr_div_pow2 by lia.
    apply Z.div_small. change (2 ^ 4) with 16. lia. }
  split.
  { unfold low_nibble. rewrite <- Z.land_assoc. reflexivity. }
  rewrite Hbus. reflexivity.
Qed.

(** ** The increment direction *)

Lemma setIncrementDirection_run (direction : byte) (o : OLED) :
  setIncrementDirection direction o =
  (mkOLED (pin_ncs o) (pin_dc o) (pin_reset o)
          (to_byte (Z.lor (to_byte (Z.land (remap_flags o) (Z.lnot 1)))
                          (Z.land direction 1)))
          (gpio_status o),
   [DigitalWrite (pin_dc o) LOW; SPI_transfer (to_byte 0xA0);
    DigitalWrite (pin_dc o) HIGH;
    SPI_transfer (new_remap (remap_flags o) direction)]).
Proof. reflexivity. Qed.

Lemma new_remap_bits (old : byte) (direction : Z) (i : Z) :
  Z.testbit (new_remap old direction) i
  = if i =? 0 then Z.testbit direction 0 else Z.testbit old i.
Proof.
  unfold new_remap. change 256 with (2 ^ 8).
  destruct (Z.ltb_spec i 0) as [Hneg | Hpos].
  - destruct (Z.eqb_spec i 0); [lia |].
    rewrite (Z.testbit_neg_r old i) by assumption.
    apply Z.testbit_neg_r. assumption.
  - rewrite Z.testbit_mod_pow2 by lia.
    rewrite Z.lor_spec, Z.testbit_mod_pow2 by lia.
    rewrite !Z.land_spec, Z.lnot_spec by assumption.
    rewrite testbit_1.
    destruct (Z.eqb_spec i 0) as [-> | Hne].
    + simpl. rewrite andb_false_r, andb_true_r. reflexivity.
    + simpl. rewrite !andb_true_r, andb_false_r, orb_false_r.
      destruct (Z.ltb_spec i 8) as [Hlt | Hge]; simpl; [reflexivity |].
      symmetry. apply byte_testbit_high. assumption.
Qed.

Lemma new_remap_keeps_mask (old : byte) (direction : Z) (mask : Z) :
  Z.testbit mask 0 = false ->
  Z.land (new_remap old direction) mask = Z.land old mask.
Proof.
  intros Hm. apply Z.bits_inj'. intros i Hi.
  rewrite !Z.land_spec, new_remap_bits.
  destruct (Z.eqb_spec i 0) as [-> | Hne]; [| reflexivity].
  rewrite Hm, !andb_false_r. reflexivity.
Qed.

(** C9. For every stored [remap_flags] and every [direction],
    [setIncrementDirection] sends command 0xA0 with one data byte and
    stores that same byte in [remap_flags].  Its bit 0 is bit 0 of
    [direction]; every other bit is the bit of the previous
    [remap_flags].  So the column order, colour order, scan direction,
    COM split and colour depth flags are unchanged, and so are the other
    members of the object. *)
Theorem setIncrementDirection_frame (direction : byte) (o : OLED) (l : level) :
  let o' := object_after (setIncrementDirection direction) o in
  let remap : Z := remap_flags o' in
  on_bus (setIncrementDirection direction) o l = [Command 0xA0; Data remap]
  /\ Z.testbit remap 0 = Z.testbit direction 0
  /\ (forall i : Z, i <> 0 -> Z.testbit remap i = Z.testbit (remap_flags o) i)
  /\ Z.land remap REMAP_VERTICAL_INCREMENT = Z.land direction REMAP_VERTICAL_INCREMENT
  /\ Z.land remap REMAP_COLUMNS_RIGHT_TO_LEFT
     = Z.land (remap_flags o) REMAP_COLUMNS_RIGHT_TO_LEFT
  /\ Z.land remap REMAP_ORDER_RGB = Z.land (remap_flags o) REMAP_ORDER_RGB
  /\ Z.land remap REMAP_SCAN_DOWN_TO_UP = Z.land (remap_flags o) REMAP_SCAN_DOWN_TO_UP
  /\ Z.land remap REMAP_COM_SPLIT_ODD_EVEN
     = Z.land (remap_flags o) REMAP_COM_SPLIT_ODD_EVEN
  /\ Z.land remap (Z.lor REMAP_COLOR_RGB565 REMAP_COLOR_18BIT)
     = Z.land (remap_flags o) (Z.lor REMAP_COLOR_RGB565 REMAP_COLOR_18BIT)
  /\ (pin_ncs o', pin_dc o', pin_reset o', gpio_status o')
     = (pin_ncs o, pin_dc o, pin_reset o, gpio_status o).
Proof.
  cbv zeta. unfold on_bus, trace_of, object_after.
  rewrite setIncrementDirection_run. cbn [fst snd remap_flags pin_dc].
  change (uval (to_byte (Z.lor (to_byte (Z.land (remap_flags o) (Z.lnot 1)))
                               (Z.land direction 1))))
    with (new_remap (remap_flags o) direction).
  split; [rewrite bus_view_command, bus_view_data; reflexivity |].
  split; [rewrite new_remap_bits; reflexivity |].
  split.
  { intros i Hi. rewrite new_remap_bits.
    destruct (Z.eqb_spec i 0); [contradiction | reflexivity]. }
  split.
  { apply Z.bits_inj'. intros i Hi.
    rewrite !Z.land_spec, new_remap_bits.
    change REMAP_VERTICAL_INCREMENT with 1. rewrite testbit_1.
    destruct (Z.eqb_spec i 0) as [-> | Hne]; [reflexivity |].
    rewrite !andb_false_r. reflexivity. }
  repeat split; apply new_remap_keeps_mask; reflexivity.
Qed.

(** ** Arming the write window *)

Lemma three_commands_run (cs ce rs re : byte) (o : OLED) :
  (setColumn cs ce ;; setRow rs re ;; setWriteRam) o
  = (o, arm_events (pin_dc o) cs ce rs re).
Proof. reflexivity. Qed.

Lemma mask_127_bounds (v : Z) : 0 <= Z.land v 127 <= 127.
Proof. exact (land_ones_bounds v 7 ltac:(lia)). Qed.

Lemma mask_127_small (v : Z) : 0 <= v <= 127 -> Z.land v 127 = v.
Proof. intros H. apply (land_small v 7); [lia | exact H]. Qed.

(** The run of [setWindow]: the masked corners go out in order. *)
Lemma setWindow_run (x0 y0 x1 y1 : Z) (o : OLED) :
  setWindow x0 y0 x1 y1 o
  = (o, arm_events (pin_dc o)
          (Z.min (Z.land x0 127) (Z.land x1 127))
          (Z.max (Z.land x0 127) (Z.land x1 127))
          (Z.min (Z.land y0 127) (Z.land y1 127))
          (Z.max (Z.land y0 127) (Z.land y1 127))).
Proof.
  unfold setWindow. change COLUMN_MASK with 127. change ROW_MASK with 127.
  cbv zeta.
  pose proof (mask_127_bounds x0). pose proof (mask_127_bounds x1).
  pose proof (mask_127_bounds y0). pose proof (mask_127_bounds y1).
  destruct (Z.ltb_spec (Z.land x1 127) (Z.land x0 127));
    destruct (Z.ltb_spec (Z.land y1 127) (Z.land y0 127));
    rewrite three_commands_run, !to_byte_small by lia;
    f_equal; f_equal; lia.
Qed.

Lemma bus_view_arm (dc : Z) (l : level) (cs ce rs re : Z) (rest : list event) :
  bus_view dc l (arm_events dc cs ce rs re ++ rest)
  = [Command 0x15; Data cs; Data ce; Command 0x75; Data rs; Data re; Command 0x5C]
    ++ bus_view dc HIGH rest.
Proof.
  unfold arm_events. cbn [app].
  rewrite bus_view_command, !bus_view_data.
  rewrite bus_view_command, !bus_view_data.
  rewrite bus_view_command. reflexivity.
Qed.

(** C3. [setWindow(x0,y0,x1,y1)] masks each coordinate into [0,127],
    swaps corners that are reversed, and issues exactly three commands in
    order through [setColumn], [setRow] and [setWriteRam]: 0x15 with the
    column range (start, end), 0x75 with the row range (start, end), then
    0x5C.  On the bus start is never after end on either axis and every
    coordinate is in [0,127].  For corners on the grid the window is the
    corners themselves, the smaller first: reversed corners are swapped
    and corners in order go out as given. *)
Theorem setWindow_normalises (x0 y0 x1 y1 : Z) (o : OLED) (l : level) :
  let cs := Z.min (Z.land x0 127) (Z.land x1 127) in
  let ce := Z.max (Z.land x0 127) (Z.land x1 127) in
  let rs := Z.min (Z.land y0 127) (Z.land y1 127) in
  let re := Z.max (Z.land y0 127) (Z.land y1 127) in
  on_bus (setWindow x0 y0 x1 y1) o l
  = [Command 0x15; Data cs; Data ce; Command 0x75; Data rs; Data re; Command 0x5C]
  /\ (0 <= cs <= ce /\ ce <= 127)
  /\ (0 <= rs <= re /\ re <= 127)
  /\ object_after (setWindow x0 y0 x1 y1) o = o
  /\ (0 <= x0 <= 127 -> 0 <= x1 <= 127 -> cs = Z.min x0 x1 /\ ce = Z.max x0 x1)
  /\ (0 <= y0 <= 127 -> 0 <= y1 <= 127 -> rs = Z.min y0 y1 /\ re = Z.max y0 y1).
Proof.
  cbv zeta.
  pose proof (mask_127_bounds x0). pose proof (mask_127_bounds x1).
  pose proof (mask_127_bounds y0). pose proof (mask_127_bounds y1).
  split.
  { unfold on_bus, trace_of. rewrite setWindow_run. cbn [snd].
    rewrite <- (app_nil_r (arm_events _ _ _ _ _)), bus_view_arm. reflexivity. }
  split; [lia |].
  split; [lia |].
  split; [unfold object_after; rewrite setWindow_run; reflexivity |].
  split.
  - intros Hx0 Hx1. rewrite !mask_127_small by assumption. split; reflexivity.
  - intros Hy0 Hy1. rewrite !mask_127_small by assumption. split; reflexivity.
Qed.

(** ** The bitmap decoder *)





Section DecoderFacts.

Variable max_palette : Z.
Variable compression_supported : Z -> bool.
Context {SourceType : Type} {Source : ByteSource SourceType}.





End DecoderFacts.

Section DecoderStatus.

Variable max_palette : Z.
Variable compression_supported : Z -> bool.
Context {File PgmBuffer : Type}.
Context {File_source : ByteSource File} {Pgm_source : ByteSource PgmBuffer}.


End DecoderStatus.


(** ** Worked examples *)

Example white_on_the_wire :
  trace_of (writeData_Colour (Colour_init (to_byte 31) (to_byte 63) (to_byte 31)))
           example_oled
  = [SPI_transfer 0xFF; SPI_transfer 0xFF].
Proof. reflexivity. Qed.

Example pure_green_on_the_wire :
  trace_of (writeData_Colour (Colour_init (to_byte 0) (to_byte 63) (to_byte 0)))
           example_oled
  = [SPI_transfer 0x07; SPI_transfer 0xE0].
Proof. reflexivity. Qed.

Example red_member_truncates :
  channels (Colour_init (to_byte 255) (to_byte 255) (to_byte 33)) = (31, 63, 1).
Proof. reflexivity. Qed.

Example display_normal_on_the_bus :
  on_bus (setDisplayMode DISPLAY_NORMAL) example_oled LOW = [Command 0xA6].
Proof. reflexivity. Qed.

Example second_precharge_of_16 :
  on_bus (setSecondPrechargePeriod (to_byte 16)) example_oled HIGH
  = [Command 0xB6; Data 8].
Proof. reflexivity. Qed.

Example reset_31_precharge_15 :
  on_bus (setResetPrechargePeriods (to_byte 31) (to_byte 15)) example_oled HIGH
  = [Command 0xB1; Data 0x0F].
Proof. reflexivity. Qed.

Example increment_direction_keeps_rgb565 :
  let o := object_after (setRemapFormat (to_byte (Z.lor REMAP_COLOR_RGB565 REMAP_ORDER_RGB)))
                        example_oled in
  uval (remap_flags (object_after (setIncrementDirection (to_byte 0xFF)) o)) = 0x45.
Proof. reflexivity. Qed.

Example window_corners_swapped :
  on_bus (setWindow 100 7 20 2) example_oled LOW
  = [Command 0x15; Data 20; Data 100; Command 0x75; Data 2; Data 7; Command 0x5C].
Proof. reflexivity. Qed.

Example window_off_grid_masked :
  on_bus (setWindow 127 (-1) 128 200) example_oled LOW
  = [Command 0x15; Data 0; Data 127; Command 0x75; Data 72; Data 127; Command 0x5C].
Proof. reflexivity. Qed.

Example tiny_bitmap_decodes :
  displayBMP 256 only_uncompressed
    (@Call_pgm_xy MemoryBitmap MemoryBitmap (tiny_bitmap 0) 10 20) example_oled
  = (BMP_OK,
     (example_oled,
      [DigitalWrite 2 LOW; SPI_transfer 0x15; DigitalWrite 2 HIGH;
       SPI_transfer 10; SPI_transfer 11;
       DigitalWrite 2 LOW; SPI_transfer 0x75; DigitalWrite 2 HIGH;
       SPI_transfer 20; SPI_transfer 21;
       DigitalWrite 2 LOW; SPI_transfer 0x5C; DigitalWrite 2 HIGH;
       SPI_transfer 0x08; SPI_transfer 0x1F; SPI_transfer 0x08; SPI_transfer 0x3F;
       SPI_transfer 0x00; SPI_transfer 0x1F; SPI_transfer 0x00; SPI_transfer 0x3F])).
Proof. reflexivity. Qed.

Example compressed_bitmap_rejected :
  displayBMP 256 only_uncompressed
    (@Call_File_bounds MemoryBitmap MemoryBitmap (tiny_bitmap 1) 0 0 1 1) example_oled
  = (BMP_COMPRESSION_NOT_SUPPORTED, (example_oled, [])).
Proof. reflexivity. Qed.

Example bitmap_off_the_grid_rejected :
  displayBMP 256 only_uncompressed
    (@Call_File_xy MemoryBitmap MemoryBitmap (tiny_bitmap 0) 128 0) example_oled
  = (BMP_ORIGIN_OUTSIDE_IMAGE, (example_oled, [])).
Proof. reflexivity. Qed.

Example bitmap_clipped_at_the_edge :
  on_bus_of_decoding
    (displayBMP 256 only_uncompressed
       (@Call_File_xy MemoryBitmap MemoryBitmap (tiny_bitmap 0) 127 0) example_oled)
  = (BMP_OK,
     [Command 0x15; Data 127; Data 127; Command 0x75; Data 0; Data 1; Command 0x5C;
      Data 0x08; Data 0x1F; Data 0x00; Data 0x1F]).
Proof. reflexivity. Qed.

Example bitmap_into_one_pixel :
  on_bus_of_decoding
    (displayBMP 256 only_uncompressed
       (@Call_pgm_bounds MemoryBitmap MemoryBitmap (tiny_bitmap 0) 5 5 5 5) example_oled)
  = (BMP_OK,
     [Command 0x15; Data 5; Data 5; Command 0x75; Data 5; Data 5; Command 0x5C;
      Data 0x00; Data 0x1F]).
Proof. reflexivity. Qed.

Example bitmap_of_negative_height_rejected :
  displayBMP 256 only_uncompressed
    (@Call_File_xy MemoryBitmap MemoryBitmap (test_bitmap 2 (-2) 0) 10 20) example_oled
  = (BMP_ORIGIN_OUTSIDE_IMAGE, (example_oled, [])).
Proof. reflexivity. Qed.

(* ================================================================== *)
(** * Further properties of the command layer *)

(** ** The shape of every command call *)

(** The events of a call: D/C low, the opcode, D/C high, the data bytes;
    [setDisplayMode] alone wraps them in chip select low and high. *)
Lemma run_call_trace (c : command_call) (o : OLED) :
  trace_of (run_call c) o
  = if is_setDisplayMode c
    then [DigitalWrite (pin_ncs o) LOW; DigitalWrite (pin_dc o) LOW;
          SPI_transfer (opcode c); DigitalWrite (pin_dc o) HIGH;
          DigitalWrite (pin_ncs o) HIGH]
    else DigitalWrite (pin_dc o) LOW :: SPI_transfer (opcode c)
         :: DigitalWrite (pin_dc o) HIGH :: map SPI_transfer (payload c o).
Proof.
  destruct c as [s e | s e | | mode | lk | d f | m | r | r | fl | dir | a b c
                 | ct | rl pc | lv | ck | lb];
    try reflexivity.
  destruct mode; reflexivity.
Qed.

Lemma run_call_object (c : command_call) (o : OLED) :
  let o' := object_after (run_call c) o in
  pin_ncs o' = pin_ncs o /\ pin_dc o' = pin_dc o /\ pin_reset o' = pin_reset o
  /\ gpio_status o' = gpio_status o
  /\ uval (remap_flags o')
     = if writes_remap c then hd 0 (payload c o) else uval (remap_flags o).
Proof.
  destruct c; repeat split; reflexivity.
Qed.

Lemma new_remap_bounds (old direction : Z) : 0 <= new_remap old direction <= 255.
Proof.
  unfold new_remap.
  pose proof (Z.mod_pos_bound
                (Z.lor (Z.land old (Z.lnot 1) mod 256) (Z.land direction 1)) 256
                ltac:(lia)).
  lia.
Qed.

Lemma payload_bytes (c : command_call) (o : OLED) :
  Forall (fun d => 0 <= d <= 255) (payload c o).
Proof.
  destruct c; cbn [payload];
    repeat (apply Forall_cons || apply Forall_nil);
    try apply byte_bounds.
  apply new_remap_bounds.
Qed.

Lemma on_bus_run_call (c : command_call) (o : OLED) (l : level) :
  on_bus (run_call c) o l = Command (opcode c) :: map Data (payload c o).
Proof.
  unfold on_bus. rewrite run_call_trace.
  destruct (is_setDisplayMode c) eqn:E.
  - rewrite bus_view_before_low, bus_view_command.
    destruct c; try discriminate E. reflexivity.
  - rewrite bus_view_command, bus_view_data_run. reflexivity.
Qed.

Lemma dc_after_run_call (c : command_call) (o : OLED) (l : level) :
  pin_after (pin_dc o) l (trace_of (run_call c) o) = HIGH.
Proof.
  rewrite run_call_trace.
  destruct (is_setDisplayMode c).
  - cbn [pin_after]. rewrite !Z.eqb_refl.
    destruct (uval (pin_ncs o) =? uval (pin_dc o)); reflexivity.
  - cbn [pin_after]. rewrite !Z.eqb_refl.
    apply pin_after_transfers.
Qed.

(** X1. Every command method is framed alike.  Whatever level D/C had,
    the controller sees exactly one command byte, the method's opcode,
    followed by at most three data bytes and nothing else; every byte is
    in 0..255; D/C is high when the call returns and the pin numbers of the
    object are untouched. *)
Theorem command_call_framing (c : command_call) (o : OLED) (l : level) :
  on_bus (run_call c) o l = Command (opcode c) :: map Data (payload c o)
  /\ (length (payload c o) <= 3)%nat
  /\ 0 <= opcode c <= 255
  /\ Forall (fun d => 0 <= d <= 255) (payload c o)
  /\ pin_after (pin_dc o) l (trace_of (run_call c) o) = HIGH
  /\ (pin_ncs (object_after (run_call c) o), pin_dc (object_after (run_call c) o),
      pin_reset (object_after (run_call c) o))
     = (pin_ncs o, pin_dc o, pin_reset o).
Proof.
  split; [apply on_bus_run_call |].
  split; [destruct c; cbn [payload length]; lia |].
  split; [destruct c as [| | | mode | | | | | | | | | | | | |];
          try destruct mode; cbn; lia |].
  split; [apply payload_bytes |].
  split; [apply dc_after_run_call |].
  destruct c; reflexivity.
Qed.

(** X2. No two registers share an opcode: when two calls open with the
    same command byte they address the same register.  (The command lock
    has two methods, [setCommandLock] and [setLockBits], and so has the
    remap register; the four display modes are four opcodes.) *)
Theorem opcode_identifies_register (c1 c2 : command_call) (o1 o2 : OLED)
        (l1 l2 : level) :
  hd_error (on_bus (run_call c1) o1 l1) = hd_error (on_bus (run_call c2) o2 l2) ->
  register_of c1 = register_of c2.
Proof.
  rewrite !on_bus_run_call. cbn [hd_error].
  intros H. injection H as H.
  destruct c1 as [| | | m1 | | | | | | | | | | | | |];
    destruct c2 as [| | | m2 | | | | | | | | | | | | |];
    try reflexivity;
    try destruct m1; try destruct m2;
    cbn in H; discriminate H.
Qed.

Lemma opcode_identifies_register_witness :
  hd_error (on_bus (run_call (call_setCommandLock DISPLAY_COMMAND_UNLOCK))
                   example_oled LOW)
  = hd_error (on_bus (run_call (call_setLockBits (to_byte 0x16))) example_oled HIGH)
  /\ register_of (call_setCommandLock DISPLAY_COMMAND_UNLOCK)
     = register_of (call_setLockBits (to_byte 0x16)).
Proof.
  split; [reflexivity |].
  apply (opcode_identifies_register
           (call_setCommandLock DISPLAY_COMMAND_UNLOCK)
           (call_setLockBits (to_byte 0x16)) example_oled example_oled LOW HIGH).
  reflexivity.
Defined.

(** ** The remap flags and the bytes sent *)

(** What one call adds to the reading of the bus: a call that writes the
    remap register leaves its data byte as the last one sent after 0xA0,
    any other call leaves the reading as it was. *)
Lemma last_remap_sent_call (c : command_call) (o : OLED) (sent : option Z)
      (pending : bool) (rest : list bus_item) :
  last_remap_sent sent pending ((Command (opcode c) :: map Data (payload c o)) ++ rest)
  = last_remap_sent (if writes_remap c then Some (hd 0 (payload c o)) else sent)
                    false rest.
Proof.
  destruct c as [s e | s e | | mode | lk | d f | m | r | r | fl | dir | a b c
                 | ct | rl pc | lv | ck | lb];
    try reflexivity.
  destruct mode; reflexivity.
Qed.

Lemma on_bus_run_calls_cons (c : command_call) (rest : list command_call)
      (o : OLED) (l : level) :
  on_bus (run_calls (c :: rest)) o l
  = (Command (opcode c) :: map Data (payload c o))
    ++ on_bus (run_calls rest) (object_after (run_call c) o) HIGH.
Proof.
  unfold on_bus at 1. cbn [run_calls]. unfold trace_of at 1.
  rewrite andThen_run. cbn [snd].
  rewrite bus_view_app, dc_after_run_call.
  change (bus_view (pin_dc o) l (trace_of (run_call c) o))
    with (on_bus (run_call c) o l).
  rewrite on_bus_run_call.
  unfold on_bus.
  destruct (run_call_object c o) as (_ & Hdc & _). cbv zeta in Hdc.
  rewrite Hdc. reflexivity.
Qed.

Lemma object_after_run_calls_cons (c : command_call) (rest : list command_call)
      (o : OLED) :
  object_after (run_calls (c :: rest)) o
  = object_after (run_calls rest) (object_after (run_call c) o).
Proof.
  unfold object_after at 1. cbn [run_calls]. rewrite andThen_run. reflexivity.
Qed.

(** Calls that do not write the remap register leave the member alone. *)
Lemma run_calls_keep_remap_flags (cs : list command_call) :
  existsb writes_remap cs = false ->
  forall o : OLED,
    uval (remap_flags (object_after (run_calls cs) o)) = remap_flags o.
Proof.
  induction cs as [| c rest IH]; intros Hex o; [reflexivity |].
  rewrite object_after_run_calls_cons.
  cbn [existsb] in Hex. apply orb_false_iff in Hex. destruct Hex as [Hc Hrest].
  rewrite IH by exact Hrest.
  destruct (run_call_object c o) as (_ & _ & _ & _ & Hflags). cbv zeta in Hflags.
  rewrite Hflags, Hc. reflexivity.
Qed.

Lemma last_remap_sent_run_calls (cs : list command_call) :
  forall (o : OLED) (l : level) (sent : option Z) (pending : bool),
    last_remap_sent sent pending (on_bus (run_calls cs) o l)
    = if existsb writes_remap cs
      then Some (uval (remap_flags (object_after (run_calls cs) o)))
      else sent.
Proof.
  induction cs as [| c rest IH]; intros o l sent pending; [reflexivity |].
  rewrite on_bus_run_calls_cons, last_remap_sent_call, IH.
  rewrite object_after_run_calls_cons. cbn [existsb].
  destruct (run_call_object c o) as (_ & _ & _ & _ & Hflags). cbv zeta in Hflags.
  destruct (writes_remap c) eqn:Hc; cbn [orb].
  - destruct (existsb writes_remap rest) eqn:Hrest; [reflexivity |].
    rewrite run_calls_keep_remap_flags by exact Hrest.
    rewrite Hflags. reflexivity.
  - reflexivity.
Qed.

(** X3. The member [remap_flags] is the driver's record of what it sent:
    after any sequence of command calls that contains a [setRemapFormat]
    or a [setIncrementDirection], [remap_flags] equals the data byte the
    driver last put on the bus right after a command byte 0xA0, whatever
    the member held before; a sequence without such a call puts no data
    byte after a 0xA0 on the bus and leaves the member unchanged. *)
Theorem remap_flags_is_last_sent (cs : list command_call) (o : OLED) (l : level) :
  last_remap_sent None false (on_bus (run_calls cs) o l)
  = (if existsb writes_remap cs
     then Some (uval (remap_flags (object_after (run_calls cs) o)))
     else None)
  /\ (existsb writes_remap cs = false ->
      uval (remap_flags (object_after (run_calls cs) o)) = remap_flags o).
Proof.
  split.
  - apply last_remap_sent_run_calls.
  - intros Hex. apply run_calls_keep_remap_flags. exact Hex.
Qed.

(** X4. A format chosen by [setRemapFormat] survives everything but the
    increment direction: after [setRemapFormat(flags)], any calls that do
    not write the remap register, then [setIncrementDirection(direction)],
    the stored flags are [flags] with bit 0 replaced by bit 0 of
    [direction]. *)
Theorem format_survives_direction (flags direction : byte) (cs : list command_call)
        (o : OLED) :
  existsb writes_remap cs = false ->
  let o' := object_after
              (run_calls (call_setRemapFormat flags :: cs
                          ++ [call_setIncrementDirection direction])) o in
  uval (remap_flags o') = Z.lor (Z.land flags 0xFE) (Z.land direction 1)
  /\ (forall i : Z, i <> 0 -> Z.testbit (remap_flags o') i = Z.testbit flags i)
  /\ Z.testbit (remap_flags o') 0 = Z.testbit direction 0.
Proof.
  intros Hcs. cbv zeta.
  assert (Hval : uval (remap_flags
                         (object_after
                            (run_calls (call_setRemapFormat flags :: cs
                                        ++ [call_setIncrementDirection direction])) o))
                 = new_remap flags direction).
  { rewrite object_after_run_calls_cons.
    set (o1 := object_after (run_call (call_setRemapFormat flags)) o).
    assert (H1 : uval (remap_flags o1) = flags) by reflexivity.
    clearbody o1. revert o1 H1.
    induction cs as [| c rest IH]; intros o1 H1.
    - cbn [app]. rewrite object_after_run_calls_cons.
      change (uval (remap_flags
                      (object_after (run_calls [])
                         (object_after (run_call (call_setIncrementDirection direction)) o1))))
        with (new_remap (remap_flags o1) direction).
      rewrite H1. reflexivity.
    - cbn [existsb] in Hcs. apply orb_false_iff in Hcs. destruct Hcs as [Hc Hrest].
      cbn [app]. rewrite object_after_run_calls_cons.
      apply IH; [exact Hrest |].
      destruct (run_call_object c o1) as (_ & _ & _ & _ & Hflags). cbv zeta in Hflags.
      rewrite Hflags, Hc. exact H1. }
  rewrite Hval.
  split.
  { apply Z.bits_inj'. intros i Hi.
    rewrite new_remap_bits, Z.lor_spec, !Z.land_spec, testbit_1.
    destruct (Z.eqb_spec i 0) as [-> | Hne].
    - cbn. rewrite andb_false_r, andb_true_r. reflexivity.
    - rewrite andb_false_r, orb_false_r.
      destruct (Z.ltb_spec i 8) as [Hlt | Hge].
      + assert (Hbit : Z.testbit 0xFE i = true).
        { assert (i = 1 \/ i = 2 \/ i = 3 \/ i = 4 \/ i = 5 \/ i = 6 \/ i = 7) as Hcase by lia.
          destruct Hcase as [-> | [-> | [-> | [-> | [-> | [-> | ->]]]]]]; reflexivity. }
        rewrite Hbit, andb_true_r. reflexivity.
      + rewrite byte_testbit_high by assumption. reflexivity. }
  split.
  - intros i Hi. rewrite new_remap_bits.
    destruct (Z.eqb_spec i 0); [contradiction | reflexivity].
  - rewrite new_remap_bits. reflexivity.
Qed.

Lemma format_survives_direction_witness :
  existsb writes_remap
    [call_setColumn (to_byte 0) (to_byte 127); call_setMasterContrast (to_byte 15)]
  = false
  /\ uval (remap_flags
             (object_after
                (run_calls
                   (call_setRemapFormat (to_byte 0x74)
                    :: [call_setColumn (to_byte 0) (to_byte 127);
                        call_setMasterContrast (to_byte 15)]
                    ++ [call_setIncrementDirection (to_byte 1)]))
                example_oled))
     = Z.lor (Z.land (to_byte 0x74) 0xFE) (Z.land (to_byte 1) 1).
Proof.
  split; [reflexivity |].
  exact (proj1 (format_survives_direction (to_byte 0x74) (to_byte 1)
                  [call_setColumn (to_byte 0) (to_byte 127);
                   call_setMasterContrast (to_byte 15)]
                  example_oled eq_refl)).
Defined.

(** X5. [setIncrementDirection] looks at bit 0 of its argument only, the
    last of two calls decides, and passing the stored flags themselves
    stores them again unchanged. *)
Theorem setIncrementDirection_composes (d1 d2 : byte) (o : OLED) :
  (Z.testbit d1 0 = Z.testbit d2 0 ->
   uval (remap_flags (object_after (setIncrementDirection d1) o))
   = remap_flags (object_after (setIncrementDirection d2) o)
   /\ trace_of (setIncrementDirection d1) o = trace_of (setIncrementDirection d2) o)
  /\ uval (remap_flags (object_after (setIncrementDirection d1 ;; setIncrementDirection d2) o))
     = remap_flags (object_after (setIncrementDirection d2) o)
  /\ uval (remap_flags (object_after (setIncrementDirection (remap_flags o)) o))
     = remap_flags o.
Proof.
  assert (Hsame : forall (old : byte) (a b : Z),
             Z.testbit a 0 = Z.testbit b 0 -> new_remap old a = new_remap old b).
  { intros old a b Hab. apply Z.bits_inj'. intros i Hi.
    rewrite !new_remap_bits. destruct (i =? 0); [exact Hab | reflexivity]. }
  split.
  { intros Hbit.
    unfold object_after, trace_of. rewrite !setIncrementDirection_run.
    cbn [fst snd remap_flags].
    change (uval (to_byte (Z.lor (to_byte (Z.land (remap_flags o) (Z.lnot 1)))
                                 (Z.land d1 1))))
      with (new_remap (remap_flags o) d1).
    change (uval (to_byte (Z.lor (to_byte (Z.land (remap_flags o) (Z.lnot 1)))
                                 (Z.land d2 1))))
      with (new_remap (remap_flags o) d2).
    rewrite (Hsame (remap_flags o) d1 d2 Hbit). split; reflexivity. }
  split.
  { unfold object_after at 1. rewrite andThen_run. cbn [fst].
    change (uval (remap_flags (object_after (setIncrementDirection d2)
                                 (object_after (setIncrementDirection d1) o))))
      with (new_remap (remap_flags (object_after (setIncrementDirection d1) o)) d2).
    change (uval (remap_flags (object_after (setIncrementDirection d2) o)))
      with (new_remap (remap_flags o) d2).
    apply Z.bits_inj'. intros i Hi.
    rewrite !new_remap_bits.
    destruct (Z.eqb_spec i 0) as [-> | Hne]; [reflexivity |].
    change (uval (remap_flags (object_after (setIncrementDirection d1) o)))
      with (new_remap (remap_flags o) d1).
    rewrite new_remap_bits.
    destruct (Z.eqb_spec i 0); [contradiction | reflexivity]. }
  change (uval (remap_flags (object_after (setIncrementDirection (remap_flags o)) o)))
    with (new_remap (remap_flags o) (remap_flags o)).
  apply Z.bits_inj'. intros i Hi.
  rewrite new_remap_bits.
  destruct (Z.eqb_spec i 0) as [-> | Hne]; reflexivity.
Qed.

(** ** Chip select *)

(** X6. [setDisplayMode] frames itself: whatever chip select and D/C
    were, also when both are wired to one pin, its single byte goes out
    with chip select low, and chip select and D/C are high when it
    returns. *)
Theorem setDisplayMode_selects (mode : OLED_Display_Mode) (o : OLED) (l : level) :
  select_view (pin_ncs o) l (trace_of (setDisplayMode mode) o)
  = [(LOW, 0xA4 + OLED_Display_Mode_value mode)]
  /\ pin_after (pin_ncs o) l (trace_of (setDisplayMode mode) o) = HIGH
  /\ pin_after (pin_dc o) l (trace_of (setDisplayMode mode) o) = HIGH.
Proof.
  change (setDisplayMode mode) with (run_call (call_setDisplayMode mode)).
  rewrite run_call_trace. cbn [is_setDisplayMode opcode select_view pin_after].
  rewrite !Z.eqb_refl.
  destruct (uval (pin_dc o) =? uval (pin_ncs o)) eqn:E1;
    destruct (uval (pin_ncs o) =? uval (pin_dc o)) eqn:E2;
    repeat split; reflexivity.
Qed.

(** X7. The other command methods leave chip select to their caller:
    with chip select and D/C on different pins, every byte of the call
    goes out at the chip select level the caller set, opcode first, and
    that level is still there afterwards. *)
Theorem protected_calls_keep_select (c : command_call) (o : OLED) (l : level) :
  uval (pin_ncs o) <> uval (pin_dc o) ->
  is_setDisplayMode c = false ->
  select_view (pin_ncs o) l (trace_of (run_call c) o)
  = map (pair l) (opcode c :: payload c o)
  /\ pin_after (pin_ncs o) l (trace_of (run_call c) o) = l.
Proof.
  intros Hpins Hc. rewrite run_call_trace, Hc.
  assert (E : (uval (pin_dc o) =? uval (pin_ncs o)) = false).
  { apply Z.eqb_neq. intros H. apply Hpins. symmetry. exact H. }
  cbn [select_view pin_after map]. rewrite E.
  rewrite select_view_transfers, pin_after_transfers.
  split; reflexivity.
Qed.

Lemma protected_calls_keep_select_witness :
  (uval (pin_ncs example_oled) <> uval (pin_dc example_oled)
   /\ is_setDisplayMode (call_setColumn (to_byte 3) (to_byte 9)) = false)
  /\ select_view (pin_ncs example_oled) LOW
       (trace_of (run_call (call_setColumn (to_byte 3) (to_byte 9))) example_oled)
     = [(LOW, 0x15); (LOW, 3); (LOW, 9)].
Proof.
  assert (Hpins : uval (pin_ncs example_oled) <> uval (pin_dc example_oled))
    by (vm_compute; discriminate).
  split; [split; [exact Hpins | reflexivity] |].
  exact (proj1 (protected_calls_keep_select
                  (call_setColumn (to_byte 3) (to_byte 9)) example_oled LOW
                  Hpins eq_refl)).
Defined.

(** ** Buffers of bytes and runs of pixels *)

Lemma writeData_loop_run (data : nat -> byte) (n i : nat) (o : OLED) :
  writeData_loop data i n o
  = (o, map (fun k => SPI_transfer (data k)) (seq i n)).
Proof.
  revert i. induction n as [| n IH]; intros i; [reflexivity |].
  cbn [writeData_loop seq map]. rewrite andThen_run.
  unfold object_after, trace_of. cbn [writeData SPI_transfer_byte fst snd].
  rewrite IH. reflexivity.
Qed.

Lemma transfers_shifted (data : nat -> byte) (n m i : nat) :
  map (fun k => SPI_transfer (data k)) (seq (i + n) m)
  = map (fun k => SPI_transfer (data (n + k)%nat)) (seq i m).
Proof.
  revert i. induction m as [| m IH]; intros i; [reflexivity |].
  cbn [seq map]. rewrite <- (IH (S i)).
  replace (n + i)%nat with (i + n)%nat by lia.
  reflexivity.
Qed.

(** X8. [writeData(data, length)] transfers exactly [length] bytes, the
    elements [data[0]], ..., [data[length-1]] in that order, and nothing
    when [length] is 0; it changes neither the object nor any pin, so
    after a command all of them are data bytes.  Writing [n + m] bytes is
    writing the first [n] and then the [m] that follow. *)
Theorem writeData_buffer_transfers (data : nat -> byte) (n m : nat) (o : OLED) :
  writeData_buffer data n o
  = (o, map (fun k => SPI_transfer (data k)) (seq 0 n))
  /\ length (trace_of (writeData_buffer data n) o) = n
  /\ on_bus (writeData_buffer data n) o HIGH
     = map (fun k => Data (data k)) (seq 0 n)
  /\ (forall (command : byte) (l : level),
        on_bus (writeCommand command ;; writeData_buffer data n) o l
        = Command command :: map (fun k => Data (data k)) (seq 0 n))
  /\ trace_of (writeData_buffer data (n + m)) o
     = trace_of (writeData_buffer data n) o
       ++ trace_of (writeData_buffer (fun k => data (n + k)%nat) m) o.
Proof.
  assert (Hbus : forall l : list nat,
             bus_view (pin_dc o) HIGH (map (fun k => SPI_transfer (data k)) l)
             = map (fun k => Data (data k)) l).
  { intros l. induction l as [| k l IH]; [reflexivity |].
    cbn [map bus_view]. rewrite IH. reflexivity. }
  unfold writeData_buffer, on_bus, trace_of.
  split; [apply writeData_loop_run |].
  split; [rewrite writeData_loop_run; cbn [snd]; now rewrite length_map, length_seq |].
  split; [rewrite writeData_loop_run; cbn [snd]; apply Hbus |].
  split.
  { intros command l. rewrite andThen_run. cbn [snd].
    unfold trace_of, object_after. rewrite writeCommand_trace. cbn [fst snd app].
    rewrite writeData_loop_run. cbn [snd].
    rewrite bus_view_command, Hbus. reflexivity. }
  rewrite !writeData_loop_run. cbn [snd].
  rewrite seq_app, map_app. f_equal.
  apply (transfers_shifted data n m 0).
Qed.

Lemma writeData_Colours_run (pixels : list Colour) (o : OLED) :
  writeData_Colours pixels o = (o, flat_map pixel_events pixels).
Proof.
  induction pixels as [| c rest IH]; [reflexivity |].
  cbn [writeData_Colours flat_map]. unfold andThen.
  rewrite writeData_Colour_trace, IH. reflexivity.
Qed.

(** X9. A run of pixels written with [writeData(Colour)] costs two
    transfers per pixel and can be read back from them: unpacking the
    transfers pairwise gives the channels of the pixels, in order. *)
Theorem pixel_run_roundtrip (pixels : list Colour) (o : OLED) :
  length (trace_of (writeData_Colours pixels) o) = (2 * length pixels)%nat
  /\ unpack_stream (trace_of (writeData_Colours pixels) o) = Some (map channels pixels)
  /\ object_after (writeData_Colours pixels) o = o.
Proof.
  unfold trace_of, object_after. rewrite writeData_Colours_run. cbn [fst snd].
  split; [| split; [| reflexivity]].
  - induction pixels as [| c rest IH]; [reflexivity |].
    cbn [flat_map length app pixel_events]. rewrite IH. lia.
  - induction pixels as [| c rest IH]; [reflexivity |].
    cbn [flat_map app pixel_events unpack_stream map]. rewrite IH.
    destruct (Colour_channels c) as (Hr & Hg & Hb).
    rewrite unpack_wire by assumption. reflexivity.
Qed.

Lemma all_bytes (P : Z -> Z -> bool) :
  forallb (fun a => forallb (P a) (below 256)) (below 256) = true ->
  forall a b, 0 <= a <= 255 -> 0 <= b <= 255 -> P a b = true.
Proof.
  intros H a b Ha Hb.
  pose proof (forallb_below 256 _ H a ltac:(lia)) as H1. cbv beta in H1.
  exact (forallb_below 256 _ H1 b ltac:(lia)).
Qed.

Lemma repack_check_all :
  forall byte1 byte2, 0 <= byte1 <= 255 -> 0 <= byte2 <= 255 ->
  repack_check byte1 byte2 = true.
Proof. apply all_bytes. vm_compute. reflexivity. Qed.

(** X10. Every pair of bytes is the wire form of a colour: unpacking two
    bytes gives channels within 31, 63 and 31, and [writeData(Colour)]
    sends the colour holding them as exactly those two bytes.  With C2
    the colours and the 16-bit words correspond one to one. *)
Theorem unpack_pack_roundtrip (byte1 byte2 : byte) (o : OLED) :
  let '(r, g, b) := unpack565 byte1 byte2 in
  (0 <= r <= MAX_RED /\ 0 <= g <= MAX_GREEN /\ 0 <= b <= MAX_BLUE)
  /\ channels (Colour_init (to_byte r) (to_byte g) (to_byte b)) = (r, g, b)
  /\ trace_of (writeData_Colour (Colour_init (to_byte r) (to_byte g) (to_byte b))) o
     = [SPI_transfer byte1; SPI_transfer byte2].
Proof.
  pose proof (repack_check_all byte1 byte2 (byte_bounds byte1) (byte_bounds byte2)) as H.
  unfold repack_check in H.
  destruct (unpack565 byte1 byte2) as [[r g] b].
  repeat rewrite andb_true_iff in H.
  repeat rewrite Z.leb_le in H. repeat rewrite Z.eqb_eq in H.
  destruct H as (((((((Hr0 & Hr1) & Hg0) & Hg1) & Hb0) & Hb1) & Hhi) & Hlo).
  unfold MAX_RED, MAX_GREEN, MAX_BLUE.
  split; [lia |].
  assert (Hc : channels (Colour_init (to_byte r) (to_byte g) (to_byte b)) = (r, g, b))
    by (apply Colour_init_channels; lia).
  split; [exact Hc |].
  unfold trace_of. rewrite writeData_Colour_trace. cbn [snd]. unfold pixel_events.
  set (colour := Colour_init (to_byte r) (to_byte g) (to_byte b)) in *.
  unfold channels in Hc.
  assert (Hred : uval (red colour) = r) by congruence.
  assert (Hgreen : uval (green colour) = g) by congruence.
  assert (Hblue : uval (blue colour) = b) by congruence.
  rewrite Hred, Hgreen, Hblue, Hhi, Hlo. reflexivity.
Qed.

Lemma int_width_check_all :
  forall r g b, 0 <= r <= 31 -> 0 <= g <= 63 -> 0 <= b <= 31 ->
  int_width_check r g b = true.
Proof. apply all_channels. vm_compute. reflexivity. Qed.

(** X11. The bytes [writeData(Colour)] sends do not depend on the width
    of [int]: computed with every operand and result wrapped to 16 bits,
    or to 32 bits, they are the bytes computed without any wrapping. *)
Theorem writeData_Colour_any_int (c : Colour) (o : OLED) :
  trace_of (writeData_Colour c) o
  = [SPI_transfer (wire_hi_int 16 (red c) (green c));
     SPI_transfer (wire_lo_int 16 (green c) (blue c))]
  /\ trace_of (writeData_Colour c) o
     = [SPI_transfer (wire_hi_int 32 (red c) (green c));
        SPI_transfer (wire_lo_int 32 (green c) (blue c))].
Proof.
  destruct (Colour_channels c) as (Hr & Hg & Hb).
  pose proof (int_width_check_all _ _ _ Hr Hg Hb) as H.
  unfold int_width_check in H.
  repeat rewrite andb_true_iff in H. repeat rewrite Z.eqb_eq in H.
  destruct H as (((H1 & H2) & H3) & H4).
  unfold trace_of. rewrite writeData_Colour_trace. cbn [snd]. unfold pixel_events.
  rewrite H1, H2, H3, H4. split; reflexivity.
Qed.

(** ** Register values *)

Lemma clock_check_all :
  forall divisor frequency, 0 <= divisor <= 255 -> 0 <= frequency <= 255 ->
  clock_check divisor frequency = true.
Proof. apply all_bytes. vm_compute. reflexivity. Qed.

(** X12. [setDisplayClock] sends 0xB3 and one byte whose low nibble is
    the low nibble of [divisor] and whose high nibble is
    [(divisor >> 4) | (frequency & 0x0F)]: the frequency is masked, the
    divisor is not.  For each of the eleven divisor constants the byte
    is the divisor in the low nibble and [frequency & 0x0F] in the high
    one. *)
Theorem setDisplayClock_nibbles (divisor frequency : byte) (o : OLED) (l : level) :
  let data := clock_byte divisor frequency in
  on_bus (setDisplayClock divisor frequency) o l = [Command 0xB3; Data data]
  /\ low_nibble data = Z.land divisor 0x0F
  /\ high_nibble data = Z.lor (Z.shiftr divisor 4) (Z.land frequency 0x0F)
  /\ (In (uval divisor) display_clock_divisors ->
      low_nibble data = divisor /\ high_nibble data = Z.land frequency 0x0F).
Proof.
  cbv zeta.
  pose proof (clock_check_all divisor frequency
                (byte_bounds divisor) (byte_bounds frequency)) as H.
  unfold clock_check in H. rewrite andb_true_iff, !Z.eqb_eq in H.
  destruct H as [Hlow Hhigh].
  split.
  { unfold setDisplayClock. rewrite on_bus_writeCommand_data. reflexivity. }
  split; [exact Hlow |].
  split; [exact Hhigh |].
  intros Hin.
  assert (Hd : 0 <= divisor <= 15).
  { pose proof (byte_bounds divisor).
    unfold display_clock_divisors, DISPLAY_CLOCK_DIV_1, DISPLAY_CLOCK_DIV_2,
      DISPLAY_CLOCK_DIV_4, DISPLAY_CLOCK_DIV_8, DISPLAY_CLOCK_DIV_16,
      DISPLAY_CLOCK_DIV_32, DISPLAY_CLOCK_DIV_64, DISPLAY_CLOCK_DIV_128,
      DISPLAY_CLOCK_DIV_256, DISPLAY_CLOCK_DIV_512, DISPLAY_CLOCK_DIV_1024 in Hin.
    cbn [In] in Hin. lia. }
  rewrite Hlow, Hhigh.
  split.
  - apply (land_small divisor 4); [lia | change (Z.ones 4) with 15; lia].
  - rewrite Z.shiftr_div_pow2 by lia.
    rewrite Z.div_small by (change (2 ^ 4) with 16; lia).
    apply Z.lor_0_l.
Qed.

(** X13. A value inside the documented range of its register goes out
    as it is: a contrast of 0..15, a precharge voltage of 0..0x1F, a
    second precharge period of 1..15, and a row or multiplex ratio of
    0..127. *)
Theorem valid_values_sent_unchanged (contrast level_ clocks row : byte)
        (o : OLED) (l : level) :
  contrast <= 15 -> level_ <= 0x1F -> 1 <= clocks <= 15 -> row <= 127 ->
  on_bus (setMasterContrast contrast) o l = [Command 0xC7; Data contrast]
  /\ on_bus (setPrechargeVoltage level_) o l = [Command 0xBB; Data level_]
  /\ on_bus (setSecondPrechargePeriod clocks) o l = [Command 0xB6; Data clocks]
  /\ on_bus (setDisplayOffset row) o l = [Command 0xA2; Data row]
  /\ on_bus (setStartRow row) o l = [Command 0xA1; Data row]
  /\ on_bus (setMultiPlexRatio row) o l = [Command 0xCA; Data row].
Proof.
  intros Hc Hl Hk Hr.
  pose proof (byte_bounds contrast). pose proof (byte_bounds level_).
  pose proof (byte_bounds clocks). pose proof (byte_bounds row).
  assert (Ec : Z.land contrast 0x0F = contrast) by (apply (land_small contrast 4); [lia | change (Z.ones 4) with 15; lia]).
  assert (El : Z.land level_ 0x1F = level_) by (apply (land_small level_ 5); [lia | change (Z.ones 5) with 31; lia]).
  assert (Ek : Z.land clocks 0x0F = clocks) by (apply (land_small clocks 4); [lia | change (Z.ones 4) with 15; lia]).
  assert (Er : Z.land row ROW_MASK = row) by (apply (land_small row 7); [lia | change (Z.ones 7) with 127; lia]).
  unfold setMasterContrast, setPrechargeVoltage, setSecondPrechargePeriod,
         setDisplayOffset, setStartRow, setMultiPlexRatio.
  rewrite !on_bus_writeCommand_data.
  rewrite Ec, El, Ek, Er, !to_byte_of_byte.
  destruct (Z.eqb_spec clocks 0) as [E0 | _]; [lia |].
  rewrite to_byte_of_byte.
  repeat split; reflexivity.
Qed.

Lemma valid_values_sent_unchanged_witness :
  (uval (to_byte 9) <= 15 /\ uval (to_byte 0x17) <= 0x1F
   /\ 1 <= uval (to_byte 8) <= 15 /\ uval (to_byte 127) <= 127)
  /\ on_bus (setSecondPrechargePeriod (to_byte 8)) example_oled LOW
     = [Command 0xB6; Data (to_byte 8)].
Proof.
  assert (H1 : uval (to_byte 9) <= 15) by (vm_compute; discriminate).
  assert (H2 : uval (to_byte 0x17) <= 0x1F) by (vm_compute; discriminate).
  assert (H3 : 1 <= uval (to_byte 8) <= 15) by (split; vm_compute; discriminate).
  assert (H4 : uval (to_byte 127) <= 127) by (vm_compute; discriminate).
  split; [exact (conj H1 (conj H2 (conj H3 H4))) |].
  exact (proj1 (proj2 (proj2 (valid_values_sent_unchanged
                                (to_byte 9) (to_byte 0x17) (to_byte 8) (to_byte 127)
                                example_oled LOW H1 H2 H3 H4)))).
Defined.

(** X14. Rows wrap at 128: [setDisplayOffset], [setStartRow] and
    [setMultiPlexRatio] given a value of 128 or more send that value less
    128, and so do exactly what they do for the value less 128. *)
Theorem rows_wrap_at_128 (row : byte) (o : OLED) (l : level) :
  128 <= row ->
  on_bus (setDisplayOffset row) o l = [Command 0xA2; Data (row - 128)]
  /\ on_bus (setStartRow row) o l = [Command 0xA1; Data (row - 128)]
  /\ on_bus (setMultiPlexRatio row) o l = [Command 0xCA; Data (row - 128)]
  /\ setDisplayOffset row o = setDisplayOffset (to_byte (row - 128)) o
  /\ setStartRow row o = setStartRow (to_byte (row - 128)) o
  /\ setMultiPlexRatio row o = setMultiPlexRatio (to_byte (row - 128)) o.
Proof.
  intros Hrow. pose proof (byte_bounds row) as Hb.
  assert (Emask : Z.land row ROW_MASK = row - 128).
  { change ROW_MASK with (Z.ones 7). rewrite Z.land_ones by lia.
    change (2 ^ 7) with 128.
    rewrite <- (Z.mod_unique_pos row 128 1 (row - 128)); [reflexivity | lia | lia]. }
  assert (Esmall : Z.land (to_byte (row - 128)) ROW_MASK = row - 128).
  { rewrite to_byte_small by lia.
    apply (land_small (row - 128) 7); [lia | change (Z.ones 7) with 127; lia]. }
  unfold setDisplayOffset, setStartRow, setMultiPlexRatio.
  rewrite !on_bus_writeCommand_data, !writeCommand_data_trace.
  rewrite Emask, Esmall.
  rewrite (to_byte_small (row - 128)) by lia.
  repeat split; reflexivity.
Qed.

Lemma rows_wrap_at_128_witness :
  128 <= uval (to_byte 200)
  /\ on_bus (setStartRow (to_byte 200)) example_oled HIGH = [Command 0xA1; Data 72].
Proof.
  assert (H : 128 <= uval (to_byte 200)) by (vm_compute; discriminate).
  split; [exact H |].
  exact (proj1 (proj2 (rows_wrap_at_128 (to_byte 200) example_oled HIGH H))).
Defined.

(** ** Sequences on the bus *)





(** X16. Pixels after [setWriteRam]: whatever level D/C had, the bus
    carries the command 0x5C and then the two bytes of every pixel as
    data, in order; so [n] pixels are [2n] data bytes and no command. *)
Theorem pixels_after_setWriteRam (pixels : list Colour) (o : OLED) (l : level) :
  on_bus (setWriteRam ;; writeData_Colours pixels) o l
  = Command 0x5C :: flat_map pixel_data pixels
  /\ commands_of (on_bus (setWriteRam ;; writeData_Colours pixels) o l) = [0x5C]
  /\ length (on_bus (setWriteRam ;; writeData_Colours pixels) o l)
     = (1 + 2 * length pixels)%nat.
Proof.
  assert (Hdata : bus_view (pin_dc o) HIGH (flat_map pixel_events pixels)
                  = flat_map pixel_data pixels).
  { induction pixels as [| c rest IH]; [reflexivity |].
    cbn [flat_map pixel_events pixel_data app bus_view]. rewrite IH. reflexivity. }
  assert (Hbus : on_bus (setWriteRam ;; writeData_Colours pixels) o l
                 = Command 0x5C :: flat_map pixel_data pixels).
  { unfold on_bus, trace_of. rewrite andThen_run. cbn [snd].
    unfold trace_of, object_after, setWriteRam. rewrite writeCommand_trace.
    cbn [fst snd app]. rewrite writeData_Colours_run. cbn [snd].
    rewrite bus_view_command, Hdata. reflexivity. }
  rewrite Hbus.
  split; [reflexivity |].
  split.
  - cbn [commands_of]. f_equal.
    clear. induction pixels as [| c rest IH]; [reflexivity |].
    cbn [flat_map pixel_data app commands_of]. exact IH.
  - cbn [length]. f_equal.
    clear. induction pixels as [| c rest IH]; [reflexivity |].
    cbn [flat_map pixel_data app length]. rewrite IH. lia.
Qed.
